(** * copilot-session-logger: a shallow embedding of [src/index.ts]

    The server exposes one tool, [save-copilot-session], which renders a chat
    transcript through a workspace template and writes it to a time-stamped
    Markdown file.  This development embeds the functions of [src/index.ts]
    and states the properties of the specification against them.

    Conventions of the embedding:
    - a JavaScript string is a [string] holding the bytes of its UTF-8
      encoding, the encoding the source reads and writes files in;
    - an optional field ([x?: string]) is an [option string];
    - a JavaScript number holding an integer is a [Z];
    - [node:path] is modelled for POSIX hosts ([path.posix]);
    - [node:fs] is an explicit store threaded through an exception monad;
    - what the process reads from its host (clock, date parser, working
      directory, platform name) is gathered in a record [Env]. *)

From Stdlib Require Import ZArith String Ascii DecimalString Lia Permutation.
From stdpp Require Import gmap strings list.

Local Open Scope Z_scope.

(* ===================================================================== *)
(** * Part I: definitions                                                 *)
(* ===================================================================== *)

(** ** JavaScript string primitives used by the source *)

Module JS.

(** Truthiness of an optional string: [undefined] and [""] are falsy. *)
Definition truthy (s : option string) : bool :=
  match s with
  | Some (String _ _) => true
  | _ => false
  end.

(** [a ?? b] on optional values. *)
Definition nullish {A} (a : option A) (b : A) : A :=
  match a with
  | Some x => x
  | None => b
  end.

(** [String(n)] for an integer [n] of moderate size: decimal digits, with a
    leading minus sign for negative numbers. *)
Definition String_of_Z (n : Z) : string :=
  NilZero.string_of_int (Z.to_int n).

(** The filler of [padStart]: [fillLen] characters read cyclically from
    [whole], starting at [cur]. *)
Fixpoint cycle_fill (fillLen : nat) (whole cur : string) : string :=
  match fillLen with
  | O => ""
  | S n =>
      match cur with
      | String c r => String c (cycle_fill n whole r)
      | EmptyString =>
          match whole with
          | String c r => String c (cycle_fill n whole r)
          | EmptyString => ""
          end
      end
  end.

(** [s.padStart(maxLength, fillString)].  Lengths are counted in bytes,
    which are the code units of the text the source pads: decimal
    numerals. *)
Definition padStart (maxLength : nat) (fillString : string) (s : string)
  : string :=
  let stringLength := String.length s in
  if (maxLength <=? stringLength)%nat then s
  else match fillString with
       | EmptyString => s
       | _ => cycle_fill (maxLength - stringLength) fillString fillString
                +:+ s
       end.

(** [s.startsWith(p)], also the test "p occurs in s at this position". *)
Fixpoint startsWith (p s : string) : bool :=
  match p with
  | EmptyString => true
  | String a p' =>
      match s with
      | String b s' => Ascii.eqb a b && startsWith p' s'
      | EmptyString => false
      end
  end.

(** The string with the given bytes. *)
Definition bytes (l : list nat) : string :=
  fold_right (fun n s => String (ascii_of_nat n) s) "" l.

(** The characters [trim] strips, each in its UTF-8 encoding: the white
    space and line terminators of ECMAScript. *)
Definition white_space : list string :=
  [ bytes [9]%nat;               (* U+0009 TAB *)
    bytes [10]%nat;              (* U+000A LF *)
    bytes [11]%nat;              (* U+000B VT *)
    bytes [12]%nat;              (* U+000C FF *)
    bytes [13]%nat;              (* U+000D CR *)
    bytes [32]%nat;              (* U+0020 SP *)
    bytes [194; 160]%nat;        (* U+00A0 NBSP *)
    bytes [225; 154; 128]%nat ]  (* U+1680 *)
  ++ map (fun k => bytes [226; 128; 128 + k]%nat) (seq 0 11)%nat
                             (* U+2000 to U+200A *)
  ++ [ bytes [226; 128; 168]%nat;   (* U+2028 LS *)
       bytes [226; 128; 169]%nat;   (* U+2029 PS *)
       bytes [226; 128; 175]%nat;   (* U+202F *)
       bytes [226; 129; 159]%nat;   (* U+205F *)
       bytes [227; 128; 128]%nat;   (* U+3000 *)
       bytes [239; 187; 191]%nat ]  (* U+FEFF *).

(** The white-space character [s] starts with, if any. *)
Definition leading_white (s : string) : option string :=
  List.find (fun w => startsWith w s) white_space.

(** [skip] counts the bytes of a white-space character still to be passed
    over. *)
Fixpoint trimStart_go (skip : nat) (s : string) : string :=
  match s with
  | EmptyString => ""
  | String _ r =>
      match skip with
      | S k => trimStart_go k r
      | O =>
          match leading_white s with
          | Some w => trimStart_go (String.length w - 1) r
          | None => s
          end
      end
  end.

(** [s.trimStart()]. *)
Definition trimStart (s : string) : string := trimStart_go 0 s.

(** [s.trimEnd()]: the text up to the point from which only white space
    follows. *)
Fixpoint trimEnd (s : string) : string :=
  match s with
  | String c r =>
      match trimStart s with
      | EmptyString => ""
      | _ => String c (trimEnd r)
      end
  | EmptyString => ""
  end.

(** [s.trim()]. *)
Definition trim (s : string) : string := trimEnd (trimStart s).

(** [s.includes(p)]. *)
Fixpoint includes (p s : string) : bool :=
  startsWith p s ||
  match s with
  | String _ s' => includes p s'
  | EmptyString => false
  end.

(** Prepend a character to the first piece of a list of pieces. *)
Definition cons_head (c : ascii) (pieces : list string) : list string :=
  match pieces with
  | p :: ps => String c p :: ps
  | [] => [String c ""]
  end.

(** The scan of [s.split(sep)] for a non-empty separator: occurrences are
    found left to right and do not overlap.  [skip] counts the characters
    of a matched separator that are still to be passed over.  The head of
    the result is the piece under construction. *)
Fixpoint split_go (sep : string) (skip : nat) (s : string) : list string :=
  match s with
  | EmptyString => [""]
  | String c s' =>
      match skip with
      | S k => split_go sep k s'
      | O =>
          if startsWith sep s
          then "" :: split_go sep (String.length sep - 1) s'
          else cons_head c (split_go sep 0 s')
      end
  end.

(** With the empty separator, [split] yields the UTF-16 code units; the
    embedding yields the bytes, which are the same pieces for an ASCII
    subject.  The handler passes no empty key. *)
Fixpoint chars (s : string) : list string :=
  match s with
  | String c s' => String c "" :: chars s'
  | EmptyString => []
  end.

(** [s.split(sep)]. *)
Definition split (sep : string) (s : string) : list string :=
  match sep with
  | EmptyString => chars s
  | _ => split_go sep 0 s
  end.

(** [pieces.join(sep)]. *)
Definition join (sep : string) (pieces : list string) : string :=
  String.concat sep pieces.

End JS.

(** ** [node:path] on a POSIX host *)

Module Path.

Definition is_slash (c : ascii) : bool := Ascii.eqb c "/".

(** The segments between slashes (possibly empty ones). *)
Fixpoint segments (p : string) : list string :=
  match p with
  | EmptyString => [""]
  | String c r =>
      if is_slash c then "" :: segments r
      else JS.cons_head c (segments r)
  end.

(** Resolution of [.] and [..].  [stack] holds the segments kept so far,
    innermost first.  Above the root of an absolute path [..] is dropped;
    a relative path keeps leading [..] segments. *)
Fixpoint resolve_dots (isAbsolute : bool) (stack : list string)
    (segs : list string) : list string :=
  match segs with
  | [] => rev stack
  | seg :: rest =>
      if String.eqb seg "" || String.eqb seg "." then
        resolve_dots isAbsolute stack rest
      else if String.eqb seg ".." then
        match stack with
        | top :: below =>
            if String.eqb top ".."
            then resolve_dots isAbsolute (seg :: stack) rest
            else resolve_dots isAbsolute below rest
        | [] =>
            if isAbsolute then resolve_dots isAbsolute [] rest
            else resolve_dots isAbsolute [seg] rest
        end
      else resolve_dots isAbsolute (seg :: stack) rest
  end.

Definition first_is_slash (p : string) : bool :=
  match p with
  | String c _ => is_slash c
  | EmptyString => false
  end.

Fixpoint last_is_slash (p : string) : bool :=
  match p with
  | String c EmptyString => is_slash c
  | String _ r => last_is_slash r
  | EmptyString => false
  end.

(** [path.posix.normalize(p)]. *)
Definition normalize (p : string) : string :=
  match p with
  | EmptyString => "."
  | _ =>
      let isAbsolute := first_is_slash p in
      let trailingSeparator := last_is_slash p in
      let body := JS.join "/" (resolve_dots isAbsolute [] (segments p)) in
      match body with
      | EmptyString =>
          if isAbsolute then "/"
          else if trailingSeparator then "./" else "."
      | _ =>
          let body' := if trailingSeparator then body +:+ "/" else body in
          if isAbsolute then "/" +:+ body' else body'
      end
  end.

(** [path.posix.join(a, b)]: the non-empty arguments are glued with a
    slash and the result is normalized. *)
Definition join (a b : string) : string :=
  match a, b with
  | EmptyString, EmptyString => "."
  | EmptyString, _ => normalize b
  | _, EmptyString => normalize a
  | _, _ => normalize (a +:+ "/" +:+ b)
  end.

(** The last non-empty segment, or [""] when there is none. *)
Fixpoint last_nonempty (acc : string) (segs : list string) : string :=
  match segs with
  | [] => acc
  | seg :: rest =>
      last_nonempty (if String.eqb seg "" then acc else seg) rest
  end.

(** [path.posix.basename(p)]: trailing slashes are ignored. *)
Definition basename (p : string) : string :=
  last_nonempty "" (segments p).

End Path.

(** ** Dates *)

(** A valid [Date] object, seen through the local-time getters the source
    calls.  [getMonth] is zero-based, as in JavaScript. *)
Record Date := mkDate {
  getFullYear : Z;
  getMonth : Z;
  getDate : Z;
  getHours : Z;
  getMinutes : Z;
  getSeconds : Z;
  getMilliseconds : Z
}.

(** The ranges of the getters of a valid [Date]: the time value of a valid
    date lies within 8.64e15 ms of the epoch, which bounds the year. *)
Definition Date_in_range (d : Date) : bool :=
  (-271821 <=? getFullYear d) && (getFullYear d <=? 275760) &&
  (0 <=? getMonth d) && (getMonth d <=? 11) &&
  (1 <=? getDate d) && (getDate d <=? 31) &&
  (0 <=? getHours d) && (getHours d <=? 23) &&
  (0 <=? getMinutes d) && (getMinutes d <=? 59) &&
  (0 <=? getSeconds d) && (getSeconds d <=? 59) &&
  (0 <=? getMilliseconds d) && (getMilliseconds d <=? 999).

Definition pad2 (n : Z) : string := JS.padStart 2 "0" (JS.String_of_Z n).

Definition pad3 (n : Z) : string := JS.padStart 3 "0" (JS.String_of_Z n).

Definition formatDateFolder (d : Date) : string :=
  pad2 (getDate d) +:+ "-" +:+ pad2 (getMonth d + 1) +:+ "-"
    +:+ JS.String_of_Z (getFullYear d).

Definition formatTimeDash (d : Date) : string :=
  pad2 (getHours d) +:+ "-" +:+ pad2 (getMinutes d) +:+ "-"
    +:+ pad2 (getSeconds d).

Definition formatTimeDashMs (d : Date) : string :=
  formatTimeDash d +:+ "-" +:+ pad3 (getMilliseconds d).

Definition formatTimeColon (d : Date) : string :=
  pad2 (getHours d) +:+ ":" +:+ pad2 (getMinutes d) +:+ ":"
    +:+ pad2 (getSeconds d).

(** ** Template rendering *)

(** [out.split(key).join(value)]. *)
Definition replaceAll (key value out : string) : string :=
  JS.join value (JS.split key out).

(** [replacements] is the list [Object.entries] yields for the record: its
    own string keys in insertion order, each key once. *)
Definition applyTemplate (template : string)
    (replacements : list (string * string)) : string :=
  fold_left (fun out '(key, value) => replaceAll key value out)
    replacements template.

(** ** The host *)

(** What the process obtains from its host.  [Date_parse s] is
    [new Date(s)], with [None] for an invalid date (its [getTime()] is
    [NaN]); [Date_now] is [new Date()], which is always valid. *)
Record Env := mkEnv {
  Date_parse : string -> option Date;
  Date_now : Date;
  process_cwd : string;
  process_platform : string
}.

(** ** [node:fs] *)

Module Fs.

(** The directories and the regular files with their contents, keyed by
    path.  The root and the current directory are not recorded: they
    always exist. *)
Record store := mkStore {
  dirs : gset string;
  files : gmap string string
}.

Definition empty : store := {| dirs := ∅; files := ∅ |}.

Inductive error :=
| ENOENT (p : string)
| EEXIST (p : string)
| ENOTDIR (p : string)
| EISDIR (p : string).

Inductive outcome (A : Type) :=
| Returned (a : A)
| Thrown (e : error).
Arguments Returned {A} a.
Arguments Thrown {A} e.

(** A promise-returning computation over the store: it settles with a
    value or rejects with an error; effects made before a rejection
    stay. *)
Definition M (A : Type) : Type := store -> outcome A * store.

Definition ret {A} (a : A) : M A := fun s => (Returned a, s).

Definition throw {A} (e : error) : M A := fun s => (Thrown e, s).

Definition bind {A B} (c : M A) (k : A -> M B) : M B :=
  fun s =>
    match c s with
    | (Returned a, s') => k a s'
    | (Thrown e, s') => (Thrown e, s')
    end.

(** [try { c } catch { h }]. *)
Definition try_catch {A} (c : M A) (h : M A) : M A :=
  fun s =>
    match c s with
    | (Returned a, s') => (Returned a, s')
    | (Thrown _, s') => h s'
    end.

Definition is_dir (s : store) (p : string) : bool :=
  bool_decide (p ∈ dirs s).

Definition is_file (s : store) (p : string) : bool :=
  bool_decide (is_Some (files s !! p)).

(** The proper prefixes of [p] that end just before a slash: the
    directories above [p].  [acc] is the prefix read so far. *)
Fixpoint ancestors_from (acc : string) (p : string) : list string :=
  match p with
  | EmptyString => []
  | String c r =>
      let above := ancestors_from (acc +:+ String c "") r in
      if Path.is_slash c && negb (String.eqb acc "")
      then acc :: above else above
  end.

Definition ancestors (p : string) : list string := ancestors_from "" p.

(** The directory that holds [p], when it is a recorded one. *)
Definition parent (p : string) : option string :=
  last (ancestors p).

(** [fs.access(p)]: settles when [p] names a file or a directory. *)
Definition access (p : string) : M unit :=
  fun s =>
    if is_dir s p || is_file s p then (Returned tt, s)
    else (Thrown (ENOENT p), s).

(** [fs.mkdir(p, { recursive: true })]: creates [p] and the missing
    directories above it; rejects when a regular file is in the way. *)
Definition mkdir_recursive (p : string) : M unit :=
  fun s =>
    let chain := ancestors p ++ [p] in
    match List.find (is_file s) chain with
    | Some q =>
        (Thrown (if String.eqb q p then EEXIST p else ENOTDIR p), s)
    | None =>
        (Returned tt,
         {| dirs := list_to_set chain ∪ dirs s; files := files s |})
    end.

(** [fs.readFile(p, "utf8")]. *)
Definition readFile (p : string) : M string :=
  fun s =>
    match files s !! p with
    | Some content => (Returned content, s)
    | None => (Thrown (if is_dir s p then EISDIR p else ENOENT p), s)
    end.

(** [fs.writeFile(p, content, "utf8")]: creates or replaces the file;
    rejects when [p] is a directory or the directory holding [p] is
    missing. *)
Definition writeFile (p content : string) : M unit :=
  fun s =>
    if is_dir s p then (Thrown (EISDIR p), s)
    else
      match parent p with
      | Some d =>
          if is_dir s d
          then (Returned tt,
                {| dirs := dirs s; files := <[p := content]> (files s) |})
          else (Thrown (if is_file s d then ENOTDIR p else ENOENT p), s)
      | None =>
          (Returned tt,
           {| dirs := dirs s; files := <[p := content]> (files s) |})
      end.

End Fs.

Notation "'let!' x ':=' 'await' c 'in' k" := (Fs.bind c (fun x => k))
  (at level 10, x name, c at level 100, k at level 200).
Notation "'await' c ';' k" := (Fs.bind c (fun _ => k))
  (at level 10, c at level 100, k at level 200).

(** ** The functions of [src/index.ts] *)

Record SaveCopilotSessionArgs := mkArgs {
  transcriptMarkdown : option string;
  savedAt : option string;
  workspaceRoot : option string
}.

(** The value of [parseCliArgs]: an object with an optional
    [workspaceRoot]. *)
Record CliOptions := mkCli {
  cli_workspaceRoot : option string
}.

(** [args.findIndex(p)]: the first index whose element satisfies [p],
    or [-1]. *)
Fixpoint findIndex {A} (p : A -> bool) (l : list A) : Z :=
  match l with
  | [] => -1
  | x :: r =>
      if p x then 0
      else let i := findIndex p r in if i <? 0 then -1 else i + 1
  end.

(** [args[i]]: [undefined] outside the array. *)
Definition index_at (args : list string) (i : Z) : option string :=
  if i <? 0 then None else args !! Z.to_nat i.

Definition parseCliArgs (argv : list string) : CliOptions :=
  let args := drop 2 argv in
  let idx := findIndex (String.eqb "--workspaceRoot") args in
  if (0 <=? idx) && JS.truthy (index_at args (idx + 1))
  then {| cli_workspaceRoot := index_at args (idx + 1) |}
  else {| cli_workspaceRoot := None |}.

Definition fileExists (p : string) : Fs.M bool :=
  Fs.try_catch
    (await Fs.access p; Fs.ret true)
    (Fs.ret false).

Definition ensureDir (p : string) : Fs.M unit :=
  Fs.mkdir_recursive p.

Definition defaultTemplate : string :=
  "# Copilot chat session {{DATE}} {{TIME_COLON}}" +:+ String "010" (String "010" "") +:+
  "## Conversation" +:+ String "010" (String "010" "") +:+
  "{{TRANSCRIPT}}" +:+ String "010" "".

Definition loadOrCreateTemplate (logRoot : string) : Fs.M string :=
  let templatePath := Path.join logRoot "_TEMPLATE.md" in
  let! found := await fileExists templatePath in
  if found then Fs.readFile templatePath
  else
    await Fs.writeFile templatePath defaultTemplate;
    Fs.ret defaultTemplate.

(** The two shapes of the value [saveCopilotSession] resolves to. *)
Inductive SaveResult :=
| savedPath (p : string)
| error (message : string).

Definition invalid_savedAt_message : string :=
  "Invalid 'savedAt' value. Expected an ISO-8601 datetime string.".

Definition no_transcript_message : string :=
  "No transcript provided. This tool expects Copilot to pass the full conversation Markdown as 'transcriptMarkdown' when invoking save-copilot-session.".

Definition saveCopilotSession (env : Env) (args : SaveCopilotSessionArgs)
  : Fs.M SaveResult :=
  let savedAt :=
    if JS.truthy (savedAt args)
    then Date_parse env (JS.nullish (savedAt args) "")
    else Some (Date_now env) in
  match savedAt with
  | None => Fs.ret (error invalid_savedAt_message)
  | Some savedAt =>
      let workspaceRoot :=
        JS.nullish (workspaceRoot args) (process_cwd env) in
      let logRoot := Path.join workspaceRoot "copilot-session_log" in
      let dateFolder := formatDateFolder savedAt in
      let timeDashMs := formatTimeDashMs savedAt in
      let outDir := Path.join logRoot dateFolder in
      await ensureDir outDir;
      let baseName := "session_" +:+ timeDashMs +:+ ".md" in
      let outPath := Path.join outDir baseName in
      let! template := await loadOrCreateTemplate logRoot in
      let transcript := JS.trim (JS.nullish (transcriptMarkdown args) "") in
      if negb (JS.truthy (Some transcript)) then
        Fs.ret (error no_transcript_message)
      else
        let rendered := applyTemplate template [
          ("{{DATE}}", dateFolder);
          ("{{TIME_COLON}}", formatTimeColon savedAt);
          ("{{TIME_DASH}}", formatTimeDash savedAt);
          ("{{TIME_DASH_MS}}", timeDashMs);
          ("{{WORKSPACE_ROOT}}", workspaceRoot);
          ("{{PROJECT_NAME}}", Path.basename workspaceRoot);
          ("{{OS}}", process_platform env);
          ("{{MODEL}}", "GPT-5.2");
          ("{{TRANSCRIPT}}", transcript)
        ] in
        await Fs.writeFile outPath rendered;
        Fs.ret (savedPath outPath)
  end.

(** The result of a tool call: one text block, and the error flag, which
    is absent on success. *)
Record ToolResponse := mkResponse {
  text : string;
  isError : option bool
}.

(** The [CallToolRequestSchema] handler registered by [main].  [cli] is
    the value of [parseCliArgs(process.argv)]; [name] and [arguments] are
    [req.params.name] and [req.params.arguments]. *)
Definition callTool (env : Env) (cli : CliOptions) (name : string)
    (arguments : option SaveCopilotSessionArgs) : Fs.M ToolResponse :=
  if negb (String.eqb name "save-copilot-session") then
    Fs.ret {| text := "Unknown tool: " +:+ name; isError := Some true |}
  else
    let input :=
      JS.nullish arguments
        {| transcriptMarkdown := None; savedAt := None;
           workspaceRoot := None |} in
    let! result := await
      saveCopilotSession env
        {| transcriptMarkdown := transcriptMarkdown input;
           savedAt := savedAt input;
           workspaceRoot :=
             Some (JS.nullish (workspaceRoot input)
                     (JS.nullish (cli_workspaceRoot cli)
                        (process_cwd env))) |} in
    match result with
    | error message =>
        Fs.ret {| text := message; isError := Some true |}
    | savedPath p =>
        Fs.ret {| text := p; isError := None |}
    end.

(** ** Notions used to state the properties *)

Definition is_digit (c : ascii) : bool :=
  (48 <=? nat_of_ascii c)%nat && (nat_of_ascii c <=? 57)%nat.

Definition is_letter (c : ascii) : bool :=
  let n := nat_of_ascii c in
  ((65 <=? n)%nat && (n <=? 90)%nat) || ((97 <=? n)%nat && (n <=? 122)%nat).

(** [matches_form form s]: [s] has the length of [form], with a decimal
    digit wherever [form] has a letter and the same character elsewhere;
    so ["DD-MM-YYYY"] and ["HH-MM-SS-mmm"] are forms. *)
Fixpoint matches_form (form s : string) : bool :=
  match form, s with
  | EmptyString, EmptyString => true
  | String f form', String c s' =>
      (if is_letter f then is_digit c else Ascii.eqb f c)
      && matches_form form' s'
  | _, _ => false
  end.

Fixpoint digits_value_from (acc : Z) (s : string) : option Z :=
  match s with
  | EmptyString => Some acc
  | String c r =>
      if is_digit c
      then digits_value_from (10 * acc + Z.of_nat (nat_of_ascii c - 48)) r
      else None
  end.

(** The number a non-empty string of decimal digits denotes. *)
Definition digits_value (s : string) : option Z :=
  match s with
  | EmptyString => None
  | _ => digits_value_from 0 s
  end.

(** The number written in [s] from position [start] over [len]
    characters. *)
Definition field_value (s : string) (start len : nat) : option Z :=
  digits_value (String.substring start len s).

(** The date the handler stamps the session with: [new Date(savedAt)] for
    a truthy [savedAt], the current time otherwise. *)
Definition stamp (env : Env) (args : SaveCopilotSessionArgs) : option Date :=
  if JS.truthy (savedAt args)
  then Date_parse env (JS.nullish (savedAt args) "")
  else Some (Date_now env).

Definition logRootOf (workspaceRoot : string) : string :=
  Path.join workspaceRoot "copilot-session_log".

Definition outDirOf (workspaceRoot : string) (d : Date) : string :=
  Path.join (logRootOf workspaceRoot) (formatDateFolder d).

Definition outPathOf (workspaceRoot : string) (d : Date) : string :=
  Path.join (outDirOf workspaceRoot d)
    ("session_" +:+ formatTimeDashMs d +:+ ".md").

Definition templatePathOf (logRoot : string) : string :=
  Path.join logRoot "_TEMPLATE.md".

(** The object literal the handler passes to [applyTemplate], as the list
    of its entries. *)
Definition sessionReplacements (d : Date) (workspaceRoot platform
    transcript : string) : list (string * string) :=
  [ ("{{DATE}}", formatDateFolder d);
    ("{{TIME_COLON}}", formatTimeColon d);
    ("{{TIME_DASH}}", formatTimeDash d);
    ("{{TIME_DASH_MS}}", formatTimeDashMs d);
    ("{{WORKSPACE_ROOT}}", workspaceRoot);
    ("{{PROJECT_NAME}}", Path.basename workspaceRoot);
    ("{{OS}}", platform);
    ("{{MODEL}}", "GPT-5.2");
    ("{{TRANSCRIPT}}", transcript) ].

(** The protocol-level reply for a result of [saveCopilotSession]. *)
Definition respond (r : SaveResult) : ToolResponse :=
  match r with
  | error message => {| text := message; isError := Some true |}
  | savedPath p => {| text := p; isError := None |}
  end.

(** ** A sample host, for running the embedding on concrete calls *)

(** A date parser for the sample host: it reads the extended ISO-8601 form
    [YYYY-MM-DDTHH:MM:SS.mmm], optionally followed by [Z], and rejects any
    other text.  The sample host is at UTC, so both denote local time. *)
Definition iso_parse (s : string) : option Date :=
  let tail := String.substring 23 (String.length s - 23) s in
  if matches_form "YYYY-MM-DD" (String.substring 0 10 s)
     && String.eqb (String.substring 10 1 s) "T"
     && matches_form "HH:MM:SS.mmm" (String.substring 11 12 s)
     && (String.eqb tail "" || String.eqb tail "Z")
  then
    y ← field_value s 0 4;
    mo ← field_value s 5 2;
    dd ← field_value s 8 2;
    hh ← field_value s 11 2;
    mi ← field_value s 14 2;
    ss ← field_value s 17 2;
    ms ← field_value s 20 3;
    let d := mkDate y (mo - 1) dd hh mi ss ms in
    if Date_in_range d then Some d else None
  else None.

Definition sample_now : Date := mkDate 2026 0 15 10 30 0 0.

Definition sample_env : Env :=
  {| Date_parse := iso_parse;
     Date_now := sample_now;
     process_cwd := "/home/dev/project";
     process_platform := "linux" |}.

(** ** Templates as pieces, and single-pass rendering *)

(** The nine placeholders the handler binds. *)
Inductive token :=
| DATE | TIME_COLON | TIME_DASH | TIME_DASH_MS
| WORKSPACE_ROOT | PROJECT_NAME | OS | MODEL | TRANSCRIPT.

Definition token_text (k : token) : string :=
  match k with
  | DATE => "{{DATE}}"
  | TIME_COLON => "{{TIME_COLON}}"
  | TIME_DASH => "{{TIME_DASH}}"
  | TIME_DASH_MS => "{{TIME_DASH_MS}}"
  | WORKSPACE_ROOT => "{{WORKSPACE_ROOT}}"
  | PROJECT_NAME => "{{PROJECT_NAME}}"
  | OS => "{{OS}}"
  | MODEL => "{{MODEL}}"
  | TRANSCRIPT => "{{TRANSCRIPT}}"
  end.

Definition token_eqb (a b : token) : bool :=
  String.eqb (token_text a) (token_text b).

(** The placeholders in the order of the handler's object literal. *)
Definition all_tokens : list token :=
  [DATE; TIME_COLON; TIME_DASH; TIME_DASH_MS;
   WORKSPACE_ROOT; PROJECT_NAME; OS; MODEL; TRANSCRIPT].

(** The entries of a replacement record that binds the tokens [ks], in
    that order, to the values [values] gives them. *)
Definition entries (values : token -> string) (ks : list token)
  : list (string * string) :=
  map (fun k => (token_text k, values k)) ks.

(** The values the handler binds the placeholders to. *)
Definition session_values (d : Date) (workspaceRoot platform
    transcript : string) (k : token) : string :=
  match k with
  | DATE => formatDateFolder d
  | TIME_COLON => formatTimeColon d
  | TIME_DASH => formatTimeDash d
  | TIME_DASH_MS => formatTimeDashMs d
  | WORKSPACE_ROOT => workspaceRoot
  | PROJECT_NAME => Path.basename workspaceRoot
  | OS => platform
  | MODEL => "GPT-5.2"
  | TRANSCRIPT => transcript
  end.

(** A template read as a sequence of literal texts and placeholders. *)
Inductive piece :=
| Lit (s : string)
| Tok (k : token).

Definition piece_text (p : piece) : string :=
  match p with
  | Lit s => s
  | Tok k => token_text k
  end.

(** The template text a sequence of pieces stands for. *)
Fixpoint assemble (ps : list piece) : string :=
  match ps with
  | [] => ""
  | p :: rest => piece_text p +:+ assemble rest
  end.

(** Every character of [s] satisfies [P]. *)
Fixpoint all_chars (P : ascii -> bool) (s : string) : bool :=
  match s with
  | EmptyString => true
  | String c r => P c && all_chars P r
  end.

(** No opening brace occurs in [s]. *)
Definition brace_free (s : string) : bool :=
  all_chars (fun c => negb (Ascii.eqb c "{")) s.

(** A piece whose literal text has no opening brace: every opening brace
    of the assembled template then belongs to a placeholder. *)
Definition plain (p : piece) : bool :=
  match p with
  | Lit s => brace_free s
  | Tok _ => true
  end.

(** Each placeholder replaced by its value, literal text kept. *)
Definition fill (values : token -> string) (p : piece) : piece :=
  match p with
  | Lit s => Lit s
  | Tok k => Lit (values k)
  end.

(** The value the first entry for [k] gives, in a list of bindings. *)
Fixpoint binding (k : token) (es : list (token * string)) : option string :=
  match es with
  | [] => None
  | (k', v) :: rest => if token_eqb k' k then Some v else binding k rest
  end.

(** Placeholders bound in [es] replaced by their value, others kept. *)
Definition fill_bound (es : list (token * string)) (p : piece) : piece :=
  match p with
  | Lit s => Lit s
  | Tok k =>
      match binding k es with
      | Some v => Lit v
      | None => Tok k
      end
  end.

(** The entries of a record that binds tokens, as [Object.entries] yields
    them. *)
Definition keyed (es : list (token * string)) : list (string * string) :=
  map (fun e => (token_text (fst e), snd e)) es.

(** Modelled from the spec: the single-pass renderer of section 4.2.  The
    template is read once, left to right; where a token of the map occurs,
    its value is emitted and reading resumes after the token; any other
    character is copied.  Emitted values are never read again.  [skip]
    counts the characters of a matched token still to be passed over. *)
Fixpoint single_pass_go (replacements : list (string * string))
    (skip : nat) (s : string) : string :=
  match s with
  | EmptyString => ""
  | String c s' =>
      match skip with
      | S n => single_pass_go replacements n s'
      | O =>
          match List.find
                  (fun e => negb (String.eqb (fst e) "")
                            && JS.startsWith (fst e) s) replacements with
          | Some (key, value) =>
              value +:+ single_pass_go replacements (String.length key - 1) s'
          | None => String c (single_pass_go replacements 0 s')
          end
      end
  end.

Definition render_single_pass (template : string)
    (replacements : list (string * string)) : string :=
  single_pass_go replacements 0 template.

(** The scan behind [replaceAll] for a non-empty key, written directly:
    copy characters, and at each occurrence of [key] emit [value] and pass
    over the occurrence. *)
Fixpoint replace_scan (key value : string) (skip : nat) (s : string)
  : string :=
  match s with
  | EmptyString => ""
  | String c s' =>
      match skip with
      | S n => replace_scan key value n s'
      | O =>
          if JS.startsWith key s
          then value +:+ replace_scan key value (String.length key - 1) s'
          else String c (replace_scan key value 0 s')
      end
  end.

(** ** Paths without surprises *)

(** A segment [path.normalize] keeps as it is: not empty, not [.] or
    [..], and without a slash. *)
Definition slash_free (s : string) : bool :=
  all_chars (fun c => negb (Path.is_slash c)) s.

Definition clean_segment (s : string) : bool :=
  slash_free s && negb (String.eqb s "") && negb (String.eqb s ".")
  && negb (String.eqb s "..").

(** A workspace root that [path.join] extends as it is: [path.normalize]
    leaves it unchanged, it does not end in a slash, and it is not [.].
    (The empty path is excluded too: it normalizes to [.].) *)
Definition normalized_root (p : string) : bool :=
  String.eqb (Path.normalize p) p && negb (Path.last_is_slash p)
  && negb (String.eqb p ".").

(** The absolute path with the given segments. *)
Fixpoint abs_path (segs : list string) : string :=
  match segs with
  | [] => ""
  | seg :: rest => "/" +:+ seg +:+ abs_path rest
  end.

(** [s] consists of white-space characters only.  [skip] counts the
    bytes of the current character still to be passed over. *)
Fixpoint white_only_go (skip : nat) (s : string) : bool :=
  match s with
  | EmptyString => true
  | String _ r =>
      match skip with
      | S k => white_only_go k r
      | O =>
          match JS.leading_white s with
          | Some w => white_only_go (String.length w - 1) r
          | None => false
          end
      end
  end.

(** A transcript the handler rejects: absent, or made of white space
    only (the empty string included). *)
Definition blank (t : option string) : bool :=
  match t with
  | None => true
  | Some s => white_only_go 0 s
  end.

(** The calls used as examples. *)
Definition example_date : Date := mkDate 2024 2 5 9 7 2 4.

Definition date_year_999 : Date := mkDate 999 11 31 0 0 0 0.

(** ** Decimal digits *)

(** The character of the decimal digit [k]. *)
Definition digit_char (k : Z) : ascii := ascii_of_nat (48 + Z.to_nat k).

Definition is_digit_or_dash (c : ascii) : bool :=
  is_digit c || Ascii.eqb c "-".

(** [check] holds on [count] consecutive integers from [z] on. *)
Fixpoint holds_from (check : Z -> bool) (count : nat) (z : Z) : bool :=
  match count with
  | O => true
  | S n => check z && holds_from check n (z + 1)
  end.

(** The digits [pad2], [pad3] and [String] are expected to print. *)
Definition two_digits (n : Z) : string :=
  String (digit_char (n / 10)) (String (digit_char (n mod 10)) "").

Definition three_digits (n : Z) : string :=
  String (digit_char (n / 100)) (two_digits (n mod 100)).

Definition four_digits (n : Z) : string :=
  String (digit_char (n / 1000)) (three_digits (n mod 1000)).

(* ===================================================================== *)
(** * Part II: properties                                                 *)
(* ===================================================================== *)

(** ** Strings *)

Lemma append_cons c s t : String c s +:+ t = String c (s +:+ t).
Proof. reflexivity. Qed.

Lemma append_empty_l s : "" +:+ s = s.
Proof. reflexivity. Qed.

Lemma append_empty_r s : s +:+ "" = s.
Proof. induction s as [|c s IH]; [done|]. by rewrite append_cons, IH. Qed.

Lemma append_assoc s t u : (s +:+ t) +:+ u = s +:+ (t +:+ u).
Proof.
  induction s as [|c s IH]; [done|]. by rewrite !append_cons, IH.
Qed.

Lemma length_append s t :
  String.length (s +:+ t) = (String.length s + String.length t)%nat.
Proof.
  induction s as [|c s IH]; [done|]. rewrite append_cons. simpl. by rewrite IH.
Qed.

Lemma all_chars_append P s t :
  all_chars P (s +:+ t) = all_chars P s && all_chars P t.
Proof.
  induction s as [|c s IH]; [done|].
  rewrite append_cons. simpl. rewrite IH. by rewrite andb_assoc.
Qed.

Lemma startsWith_append p s : JS.startsWith p (p +:+ s) = true.
Proof.
  induction p as [|c p IH]; [done|].
  rewrite append_cons. simpl. by rewrite Ascii.eqb_refl, IH.
Qed.

Lemma includes_append_r p s t :
  JS.includes p t = true -> JS.includes p (s +:+ t) = true.
Proof.
  intros H. induction s as [|c s IH]; [done|].
  rewrite append_cons. simpl. rewrite IH. by rewrite orb_true_r.
Qed.

(** ** The exception monad *)

Lemma bind_returned {A B} (c : Fs.M A) (k : A -> Fs.M B) s a s' :
  c s = (Fs.Returned a, s') -> Fs.bind c k s = k a s'.
Proof. intros H. unfold Fs.bind. by rewrite H. Qed.

Lemma bind_thrown {A B} (c : Fs.M A) (k : A -> Fs.M B) s e s' :
  c s = (Fs.Thrown e, s') -> Fs.bind c k s = (Fs.Thrown e, s').
Proof. intros H. unfold Fs.bind. by rewrite H. Qed.

(** The handler, cut at its first effect: once the date is known, the
    rest of [saveCopilotSession] is this computation. *)
Lemma saveCopilotSession_stamped env args d :
  stamp env args = Some d ->
  saveCopilotSession env args =
    let root := JS.nullish (workspaceRoot args) (process_cwd env) in
    (await ensureDir (outDirOf root d);
     let! template := await loadOrCreateTemplate (logRootOf root) in
     let transcript := JS.trim (JS.nullish (transcriptMarkdown args) "") in
     if negb (JS.truthy (Some transcript)) then
       Fs.ret (error no_transcript_message)
     else
       await Fs.writeFile (outPathOf root d)
         (applyTemplate template
            (sessionReplacements d root (process_platform env) transcript));
       Fs.ret (savedPath (outPathOf root d))).
Proof.
  unfold stamp, saveCopilotSession. intros ->. reflexivity.
Qed.

Lemma saveCopilotSession_invalid env args fs :
  stamp env args = None ->
  saveCopilotSession env args fs
  = (Fs.Returned (error invalid_savedAt_message), fs).
Proof.
  unfold stamp, saveCopilotSession. intros ->. reflexivity.
Qed.

(** What [callTool] does for the advertised tool: it runs the handler with
    the resolved workspace root and wraps the result. *)
Lemma callTool_save env cli input fs :
  callTool env cli "save-copilot-session" (Some input) fs =
    match saveCopilotSession env
            {| transcriptMarkdown := transcriptMarkdown input;
               savedAt := savedAt input;
               workspaceRoot :=
                 Some (JS.nullish (workspaceRoot input)
                         (JS.nullish (cli_workspaceRoot cli)
                            (process_cwd env))) |} fs with
    | (Fs.Returned r, fs') => (Fs.Returned (respond r), fs')
    | (Fs.Thrown e, fs') => (Fs.Thrown e, fs')
    end.
Proof.
  unfold callTool. simpl. unfold Fs.bind.
  destruct (saveCopilotSession _ _ fs) as [[r|e] fs']; [|done].
  by destruct r.
Qed.

(** ** The store primitives *)

Lemma writeFile_returned p content s u s' :
  Fs.writeFile p content s = (Fs.Returned u, s') ->
  s' = {| Fs.dirs := Fs.dirs s; Fs.files := <[p := content]> (Fs.files s) |}.
Proof.
  unfold Fs.writeFile. intros H.
  destruct (Fs.is_dir s p); [discriminate|].
  destruct (Fs.parent p) as [d|]; [|by inversion H].
  destruct (Fs.is_dir s d); [by inversion H | discriminate].
Qed.

Lemma writeFile_thrown p content s e s' :
  Fs.writeFile p content s = (Fs.Thrown e, s') -> s' = s.
Proof.
  unfold Fs.writeFile. intros H.
  destruct (Fs.is_dir s p); [by inversion H|].
  destruct (Fs.parent p) as [d|]; [|discriminate].
  destruct (Fs.is_dir s d); [discriminate | by inversion H].
Qed.

Lemma mkdir_recursive_files p s o s' :
  Fs.mkdir_recursive p s = (o, s') -> Fs.files s' = Fs.files s.
Proof.
  unfold Fs.mkdir_recursive. intros H.
  destruct (List.find _ _); by inversion H.
Qed.

Lemma mkdir_recursive_returned p s u s' :
  Fs.mkdir_recursive p s = (Fs.Returned u, s') ->
  Fs.is_dir s' p = true.
Proof.
  unfold Fs.mkdir_recursive. intros H.
  destruct (List.find _ _); [discriminate|]. inversion H; subst.
  unfold Fs.is_dir. simpl. apply bool_decide_eq_true.
  apply elem_of_union_l, elem_of_list_to_set, elem_of_app.
  right. by apply list_elem_of_singleton.
Qed.

Lemma fileExists_spec p s :
  fileExists p s = (Fs.Returned (Fs.is_dir s p || Fs.is_file s p), s).
Proof.
  unfold fileExists, Fs.try_catch, Fs.bind, Fs.access.
  by destruct (Fs.is_dir s p || Fs.is_file s p).
Qed.

(** [loadOrCreateTemplate] touches no file but the template, and no
    directory at all. *)
Lemma loadOrCreateTemplate_frame logRoot s o s' :
  loadOrCreateTemplate logRoot s = (o, s') ->
  Fs.dirs s' = Fs.dirs s /\
  forall q, q ≠ templatePathOf logRoot ->
            Fs.files s' !! q = Fs.files s !! q.
Proof.
  unfold loadOrCreateTemplate. fold (templatePathOf logRoot).
  set (tp := templatePathOf logRoot). intros H.
  rewrite (bind_returned _ _ _ _ _ (fileExists_spec tp s)) in H.
  destruct (Fs.is_dir s tp || Fs.is_file s tp).
  - unfold Fs.readFile in H.
    destruct (Fs.files s !! tp); inversion H; by subst.
  - unfold Fs.bind in H.
    destruct (Fs.writeFile tp defaultTemplate s) as [[u|e] s1] eqn:W.
    + inversion H; subst. apply writeFile_returned in W as ->. simpl.
      split; [done|]. intros q Hq. by rewrite lookup_insert_ne.
    + inversion H; subst. by apply writeFile_thrown in W as ->.
Qed.

(** A session file exists only after a successful run: what the handler
    returned then, and what it wrote. *)
Lemma saveCopilotSession_savedPath env args fs p fs' :
  saveCopilotSession env args fs = (Fs.Returned (savedPath p), fs') ->
  let root := JS.nullish (workspaceRoot args) (process_cwd env) in
  let transcript := JS.trim (JS.nullish (transcriptMarkdown args) "") in
  exists d template,
    stamp env args = Some d /\
    p = outPathOf root d /\
    transcript ≠ "" /\
    Fs.files fs' !! p =
      Some (applyTemplate template
              (sessionReplacements d root (process_platform env)
                 transcript)).
Proof.
  intros H root transcript.
  destruct (stamp env args) as [d|] eqn:Hd.
  2:{ rewrite saveCopilotSession_invalid in H by done. discriminate. }
  rewrite (saveCopilotSession_stamped _ _ _ Hd) in H. cbv zeta in H.
  fold root in H. fold transcript in H.
  unfold Fs.bind in H.
  destruct (ensureDir _ fs) as [[u|e] s1]; [|discriminate].
  destruct (loadOrCreateTemplate _ s1) as [[template|e] s2]; [|discriminate].
  destruct transcript as [|c t] eqn:Ht; simpl in H; [discriminate|].
  destruct (Fs.writeFile _ _ s2) as [[u'|e] s3] eqn:W; [|discriminate].
  inversion H; subst. exists d, template.
  apply writeFile_returned in W as ->. simpl.
  rewrite lookup_insert_eq. done.
Qed.

(** ** Rejected [savedAt] values *)

(** C4, as stated, fails for [savedAt = ""]: the empty string is supplied
    and is no datetime, yet the handler does not reject it; it saves the
    session under the current time and creates the date directory. *)
Lemma C4_counterexample_empty_savedAt :
  ~ (forall env args s fs,
       savedAt args = Some s ->
       Date_parse env s = None ->
       exists message,
         saveCopilotSession env args fs = (Fs.Returned (error message), fs)).
Proof.
  intros claim.
  destruct (claim sample_env
              (mkArgs (Some "hello") (Some "") (Some "/tmp/ws"))
              "" Fs.empty eq_refl eq_refl) as [message H].
  vm_compute in H. discriminate H.
Qed.

(** C4 (amended): when [savedAt] is supplied, is not the empty string and
    is not parseable as a datetime, the handler returns the failure whose
    message names the expected ISO-8601 format, before any effect: the
    store of directories and files is the one it started from.  The reply
    of the tool call carries that message with the error flag set. *)
Theorem C4_unparseable_savedAt_rejected :
  forall env cli args s fs,
    savedAt args = Some s ->
    s ≠ "" ->
    Date_parse env s = None ->
    saveCopilotSession env args fs
      = (Fs.Returned (error invalid_savedAt_message), fs)
    /\ JS.includes "ISO-8601" invalid_savedAt_message = true
    /\ callTool env cli "save-copilot-session" (Some args) fs
      = (Fs.Returned
           {| text := invalid_savedAt_message; isError := Some true |}, fs).
Proof.
  intros env cli args s fs Hs Hne Hparse.
  assert (Hstamp : forall t w, stamp env (mkArgs t (Some s) w) = None).
  { intros t w. unfold stamp. simpl. destruct s; [done|]. exact Hparse. }
  split; [|split].
  - apply saveCopilotSession_invalid. destruct args as [t sa w].
    simpl in Hs. subst sa. apply Hstamp.
  - reflexivity.
  - rewrite callTool_save, Hs.
    by rewrite saveCopilotSession_invalid by apply Hstamp.
Qed.

Lemma C4_witness_not_a_date :
  let args := mkArgs (Some "hello") (Some "not-a-date") (Some "/tmp/ws") in
  saveCopilotSession sample_env args Fs.empty
    = (Fs.Returned (error invalid_savedAt_message), Fs.empty)
  /\ JS.includes "ISO-8601" invalid_savedAt_message = true
  /\ callTool sample_env (mkCli None) "save-copilot-session" (Some args)
       Fs.empty
    = (Fs.Returned
         {| text := invalid_savedAt_message; isError := Some true |},
       Fs.empty).
Proof.
  intros args.
  apply (C4_unparseable_savedAt_rejected sample_env (mkCli None) args
           "not-a-date" Fs.empty).
  - reflexivity.
  - discriminate.
  - reflexivity.
Defined.

(** C9: a call whose [savedAt] is the empty string runs exactly as the
    same call without [savedAt]: the handler stamps it with the current
    time, never answers with the ISO-8601 failure, and a path it returns
    is the one allocated from the current time. *)
Theorem C9_empty_savedAt_as_absent :
  forall env transcript root fs,
    let supplied := mkArgs transcript (Some "") root in
    let absent := mkArgs transcript None root in
    saveCopilotSession env supplied fs = saveCopilotSession env absent fs
    /\ stamp env supplied = Some (Date_now env)
    /\ fst (saveCopilotSession env supplied fs)
       ≠ Fs.Returned (error invalid_savedAt_message)
    /\ forall p fs',
         saveCopilotSession env supplied fs
           = (Fs.Returned (savedPath p), fs') ->
         p = outPathOf (JS.nullish root (process_cwd env)) (Date_now env).
Proof.
  intros env transcript root fs supplied absent.
  assert (Hstamp : stamp env supplied = Some (Date_now env)) by reflexivity.
  split; [reflexivity|]. split; [exact Hstamp|]. split.
  - rewrite (saveCopilotSession_stamped _ _ _ Hstamp). cbv zeta.
    unfold Fs.bind.
    destruct (ensureDir _ fs) as [[u|e] s1]; [|discriminate].
    destruct (loadOrCreateTemplate _ s1) as [[t|e] s2]; [|discriminate].
    destruct (negb _).
    + simpl. intros H. inversion H.
    + destruct (Fs.writeFile _ _ s2) as [[u'|e] s3]; discriminate.
  - intros p fs' H.
    destruct (saveCopilotSession_savedPath _ _ _ _ _ H)
      as (d & t & Hd & -> & _).
    rewrite Hstamp in Hd. by inversion Hd.
Qed.

Lemma C9_witness :
  saveCopilotSession sample_env (mkArgs (Some "hello") (Some "") None)
      Fs.empty
  = saveCopilotSession sample_env (mkArgs (Some "hello") None None) Fs.empty
  /\ fst (saveCopilotSession sample_env
            (mkArgs (Some "hello") (Some "") None) Fs.empty)
     = Fs.Returned
         (savedPath (outPathOf "/home/dev/project" sample_now)).
Proof.
  destruct (C9_empty_savedAt_as_absent sample_env (Some "hello") None
              Fs.empty) as (Hsame & _ & _ & Hpath).
  split; [exact Hsame|].
  replace (outPathOf "/home/dev/project" sample_now) with
    "/home/dev/project/copilot-session_log/15-01-2026/session_10-30-00-000.md".
  - vm_compute. reflexivity.
  - apply (Hpath _
      (snd (saveCopilotSession sample_env
              (mkArgs (Some "hello") (Some "") None) Fs.empty))).
    vm_compute. reflexivity.
Defined.

(** ** The workspace root *)

(** C6: a call of the tool runs the handler with the workspace root taken
    from the call's own [workspaceRoot] when it has one, else from the
    startup override when one is set, else from the current working
    directory; a call without an argument bag is a call with an empty one;
    and the path a successful call reports lies under that root. *)
Theorem C6_workspace_root_precedence :
  forall env cli input fs,
    let effective :=
      match workspaceRoot input with
      | Some perCall => perCall
      | None =>
          match cli_workspaceRoot cli with
          | Some startup => startup
          | None => process_cwd env
          end
      end in
    callTool env cli "save-copilot-session" (Some input) fs
      = match saveCopilotSession env
                (mkArgs (transcriptMarkdown input) (savedAt input)
                   (Some effective)) fs with
        | (Fs.Returned r, fs') => (Fs.Returned (respond r), fs')
        | (Fs.Thrown e, fs') => (Fs.Thrown e, fs')
        end
    /\ callTool env cli "save-copilot-session" None fs
      = callTool env cli "save-copilot-session"
          (Some (mkArgs None None None)) fs
    /\ forall reply fs',
         callTool env cli "save-copilot-session" (Some input) fs
           = (Fs.Returned reply, fs') ->
         isError reply = None ->
         exists d, stamp env input = Some d
                   /\ text reply = outPathOf effective d.
Proof.
  intros env cli input fs effective.
  assert (Heff : JS.nullish (workspaceRoot input)
                   (JS.nullish (cli_workspaceRoot cli) (process_cwd env))
                 = effective).
  { unfold effective. destruct (workspaceRoot input); [done|].
    by destruct (cli_workspaceRoot cli). }
  split; [|split].
  - by rewrite callTool_save, Heff.
  - reflexivity.
  - intros reply fs' H Hok. rewrite callTool_save, Heff in H.
    destruct (saveCopilotSession _ _ fs) as [[r|e] s1] eqn:Hrun;
      [|discriminate].
    inversion H; subst. destruct r as [p|m]; [|discriminate].
    destruct (saveCopilotSession_savedPath _ _ _ _ _ Hrun)
      as (d & t & Hd & -> & _).
    exists d. split; [|done]. exact Hd.
Qed.

Lemma C6_witness :
  let run cli root :=
    fst (callTool sample_env cli "save-copilot-session"
           (Some (mkArgs (Some "hello") None root)) Fs.empty) in
  let reply root :=
    Fs.Returned
      {| text := outPathOf root sample_now; isError := None |} in
  run (mkCli (Some "/srv/startup")) (Some "/tmp/call") = reply "/tmp/call"
  /\ run (mkCli (Some "/srv/startup")) None = reply "/srv/startup"
  /\ run (mkCli None) None = reply "/home/dev/project".
Proof.
  intros run reply.
  assert (W : forall cli root effective,
             effective = JS.nullish root
                           (JS.nullish (cli_workspaceRoot cli)
                              "/home/dev/project") ->
             fst (saveCopilotSession sample_env
                    (mkArgs (Some "hello") None (Some effective)) Fs.empty)
             = Fs.Returned (savedPath (outPathOf effective sample_now)) ->
             run cli root = reply effective).
  { intros cli root effective -> Hrun. unfold run.
    destruct (C6_workspace_root_precedence sample_env cli
                (mkArgs (Some "hello") None root) Fs.empty) as (-> & _).
    simpl transcriptMarkdown. simpl savedAt.
    replace (match workspaceRoot (mkArgs (Some "hello") None root) with
             | Some perCall => perCall
             | None => match cli_workspaceRoot cli with
                       | Some startup => startup
                       | None => process_cwd sample_env
                       end
             end)
      with (JS.nullish root
              (JS.nullish (cli_workspaceRoot cli) "/home/dev/project"))
      by (destruct root; [done|]; by destruct (cli_workspaceRoot cli)).
    destruct (saveCopilotSession _ _ Fs.empty) as [[r|e] s1];
      simpl in Hrun; inversion Hrun. reflexivity. }
  repeat split; (apply W; [reflexivity | vm_compute; reflexivity]).
Defined.

(** C10, as stated, fails when an earlier [--workspaceRoot] has a value:
    here the flag is also the final argument, and the override is set. *)
Lemma C10_counterexample_flag_twice :
  ~ (forall argv,
       last argv = Some "--workspaceRoot" ->
       parseCliArgs argv = {| cli_workspaceRoot := None |}).
Proof.
  intros claim.
  specialize (claim ["node"; "index.js"; "--workspaceRoot"; "/x";
                     "--workspaceRoot"] eq_refl).
  vm_compute in claim. discriminate claim.
Qed.

Lemma findIndex_first_occurrence (before after : list string) flag :
  flag ∉ before ->
  findIndex (String.eqb flag) (before ++ flag :: after)
  = Z.of_nat (length before).
Proof.
  induction before as [|x before IH]; intros Hnot.
  - simpl. by rewrite String.eqb_refl.
  - apply not_elem_of_cons in Hnot as [Hx Hnot].
    rewrite <- app_comm_cons. cbn [findIndex].
    destruct (String.eqb_spec flag x) as [->|_]; [done|].
    rewrite (IH Hnot). cbn [length].
    destruct (Z.ltb_spec (Z.of_nat (length before)) 0); lia.
Qed.

Lemma findIndex_absent (args : list string) flag :
  flag ∉ args -> findIndex (String.eqb flag) args = -1.
Proof.
  induction args as [|x args IH]; intros Hnot; [done|].
  apply not_elem_of_cons in Hnot as [Hx Hnot]. cbn [findIndex].
  destruct (String.eqb_spec flag x) as [->|_]; [done|].
  by rewrite (IH Hnot).
Qed.

(** C10 (amended): when the first [--workspaceRoot] among the startup
    arguments (those after the first two entries of [argv]) is the final
    argument or is immediately followed by the empty string, no override is
    set, which is also the result when the flag is absent.  Later
    occurrences of the flag are not looked at. *)
Theorem C10_first_flag_without_value :
  forall argv before after,
    drop 2 argv = before ++ "--workspaceRoot" :: after ->
    "--workspaceRoot" ∉ before ->
    after = [] \/ (exists rest, after = "" :: rest) ->
    parseCliArgs argv = {| cli_workspaceRoot := None |}
    /\ forall argv',
         "--workspaceRoot" ∉ drop 2 argv' ->
         parseCliArgs argv' = parseCliArgs argv.
Proof.
  intros argv before after Hargs Hnot Hafter.
  assert (Hnone : parseCliArgs argv = {| cli_workspaceRoot := None |}).
  { unfold parseCliArgs. rewrite Hargs.
    rewrite (findIndex_first_occurrence _ _ _ Hnot).
    assert (Hat : index_at (before ++ "--workspaceRoot" :: after)
                    (Z.of_nat (length before) + 1)
                  = after !! 0%nat).
    { unfold index_at.
      destruct (Z.ltb_spec (Z.of_nat (length before) + 1) 0); [lia|].
      replace (Z.to_nat (Z.of_nat (length before) + 1))
        with (length before + 1)%nat by lia.
      rewrite lookup_app_r by lia.
      by replace (length before + 1 - length before)%nat with 1%nat by lia. }
    rewrite Hat.
    destruct Hafter as [->|[rest ->]]; simpl; by rewrite andb_false_r. }
  split; [exact Hnone|].
  intros argv' Habsent. rewrite Hnone. unfold parseCliArgs.
  by rewrite (findIndex_absent _ _ Habsent).
Qed.

Lemma C10_witness :
  parseCliArgs ["node"; "index.js"; "--verbose"; "--workspaceRoot"]
    = {| cli_workspaceRoot := None |}
  /\ parseCliArgs ["node"; "index.js"; "--workspaceRoot"; ""; "/x"]
    = {| cli_workspaceRoot := None |}
  /\ parseCliArgs ["node"; "index.js"; "--verbose"]
    = parseCliArgs ["node"; "index.js"; "--verbose"; "--workspaceRoot"].
Proof.
  assert (H1 : "--workspaceRoot" ∉ ["--verbose"]).
  { intros H. apply list_elem_of_singleton in H. discriminate H. }
  destruct (C10_first_flag_without_value
              ["node"; "index.js"; "--verbose"; "--workspaceRoot"]
              ["--verbose"] [] eq_refl H1 (or_introl eq_refl))
    as [Hlast Habsent].
  destruct (C10_first_flag_without_value
              ["node"; "index.js"; "--workspaceRoot"; ""; "/x"] [] [""; "/x"]
              eq_refl (not_elem_of_nil _)
              (or_intror (ex_intro _ ["/x"] eq_refl)))
    as [Hempty _].
  split; [exact Hlast|]. split; [exact Hempty|].
  apply Habsent. exact H1.
Defined.

(** ** Characters of the formatted numbers *)

Lemma all_chars_weaken (P Q : ascii -> bool) s :
  (forall c, P c = true -> Q c = true) ->
  all_chars P s = true -> all_chars Q s = true.
Proof.
  intros HPQ. induction s as [|c s IH]; [done|]. simpl.
  intros [Hc Hs]%andb_true_iff. by rewrite (HPQ c Hc), IH.
Qed.

Lemma string_of_uint_digits d :
  all_chars is_digit (NilEmpty.string_of_uint d) = true.
Proof. induction d; simpl; auto. Qed.

Lemma String_of_Z_chars n :
  all_chars is_digit_or_dash (JS.String_of_Z n) = true.
Proof.
  assert (Hu : forall d, all_chars is_digit_or_dash
                           (NilZero.string_of_uint d) = true).
  { intros d. unfold NilZero.string_of_uint.
    destruct d; try done;
      apply (all_chars_weaken is_digit); try apply string_of_uint_digits;
      intros c Hc; unfold is_digit_or_dash; by rewrite Hc. }
  unfold JS.String_of_Z, NilZero.string_of_int.
  destruct (Z.to_int n) as [d|d]; [apply Hu|].
  simpl. apply Hu.
Qed.

Lemma String_of_Z_nonempty n : JS.String_of_Z n ≠ "".
Proof.
  unfold JS.String_of_Z, NilZero.string_of_int, NilZero.string_of_uint.
  destruct (Z.to_int n) as [d|d]; [|done]. by destruct d.
Qed.

Lemma cycle_fill_chars P n whole cur :
  all_chars P whole = true -> all_chars P cur = true ->
  all_chars P (JS.cycle_fill n whole cur) = true.
Proof.
  intros Hw. revert cur. induction n as [|n IH]; intros cur Hc; [done|].
  simpl. destruct cur as [|c r].
  - destruct whole as [|c r]; [done|]. simpl in *.
    apply andb_true_iff in Hw as [H1 H2]. rewrite H1. simpl. by apply IH.
  - simpl in *. apply andb_true_iff in Hc as [H1 H2]. rewrite H1. simpl.
    by apply IH.
Qed.

Lemma padStart_chars P k fill s :
  all_chars P fill = true -> all_chars P s = true ->
  all_chars P (JS.padStart k fill s) = true.
Proof.
  intros Hf Hs. unfold JS.padStart.
  destruct (k <=? String.length s)%nat; [done|].
  destruct fill as [|c r]; [done|].
  rewrite all_chars_append, Hs, andb_true_r. by apply cycle_fill_chars.
Qed.

Lemma padStart_length_ge k fill s :
  (String.length s <= String.length (JS.padStart k fill s))%nat.
Proof.
  unfold JS.padStart. destruct (k <=? String.length s)%nat; [done|].
  destruct fill; [done|]. rewrite length_append. lia.
Qed.

Lemma pad2_chars n : all_chars is_digit_or_dash (pad2 n) = true.
Proof. apply padStart_chars; [done | apply String_of_Z_chars]. Qed.

Lemma pad3_chars n : all_chars is_digit_or_dash (pad3 n) = true.
Proof. apply padStart_chars; [done | apply String_of_Z_chars]. Qed.

Lemma formatTimeDashMs_chars d :
  all_chars is_digit_or_dash (formatTimeDashMs d) = true.
Proof.
  unfold formatTimeDashMs, formatTimeDash.
  by rewrite !all_chars_append, !pad2_chars, pad3_chars.
Qed.

Lemma formatDateFolder_chars d :
  all_chars is_digit_or_dash (formatDateFolder d) = true.
Proof.
  unfold formatDateFolder.
  by rewrite !all_chars_append, !pad2_chars, String_of_Z_chars.
Qed.

Lemma formatTimeColon_chars d :
  all_chars (fun c => is_digit_or_dash c || Ascii.eqb c ":")
    (formatTimeColon d) = true.
Proof.
  unfold formatTimeColon. rewrite !all_chars_append.
  rewrite !(all_chars_weaken is_digit_or_dash _ _
              (fun c H => eq_trans (f_equal (fun b => b || _) H) eq_refl)
              (pad2_chars _)).
  done.
Qed.

(** ** Paths *)

Lemma segments_nonempty p : Path.segments p ≠ [].
Proof.
  destruct p as [|c r]; [done|]. simpl.
  destruct (Path.is_slash c); [done|]. by destruct (Path.segments r).
Qed.

Lemma cons_head_app c l l' :
  l ≠ [] -> JS.cons_head c (l ++ l') = JS.cons_head c l ++ l'.
Proof. by destruct l. Qed.

Lemma segments_append_slash a b :
  Path.segments (a +:+ "/" +:+ b) = Path.segments a ++ Path.segments b.
Proof.
  induction a as [|c a IH]; [done|].
  rewrite append_cons. simpl. rewrite IH.
  destruct (Path.is_slash c); [done|].
  apply cons_head_app, segments_nonempty.
Qed.

Lemma segments_slash_free b : slash_free b = true -> Path.segments b = [b].
Proof.
  induction b as [|c b IH]; [done|]. unfold slash_free. simpl.
  intros [Hc Hb]%andb_true_iff. apply negb_true_iff in Hc. rewrite Hc.
  by rewrite (IH Hb).
Qed.

Lemma clean_segment_tests b :
  clean_segment b = true ->
  slash_free b = true /\ String.eqb b "" = false
  /\ String.eqb b "." = false /\ String.eqb b ".." = false.
Proof.
  unfold clean_segment. rewrite !andb_true_iff, !negb_true_iff. tauto.
Qed.

Lemma resolve_dots_snoc isAbsolute stack l b :
  clean_segment b = true ->
  Path.resolve_dots isAbsolute stack (l ++ [b])
  = Path.resolve_dots isAbsolute stack l ++ [b].
Proof.
  intros (_ & H0 & H1 & H2)%clean_segment_tests.
  revert stack. induction l as [|seg l IH]; intros stack.
  - simpl. by rewrite H0, H1, H2.
  - rewrite <- app_comm_cons. cbn [Path.resolve_dots].
    destruct (String.eqb seg "" || String.eqb seg "."); [apply IH|].
    destruct (String.eqb seg ".."); [|apply IH].
    destruct stack as [|top below].
    + destruct isAbsolute; apply IH.
    + destruct (String.eqb top ".."); apply IH.
Qed.

Lemma concat_snoc sep l b :
  exists pre, String.concat sep (l ++ [b]) = pre +:+ b.
Proof.
  induction l as [|x l [pre IH]]; [by exists ""|].
  rewrite <- app_comm_cons. cbn [String.concat].
  destruct (l ++ [b]) as [|y rest] eqn:E; [by destruct l|].
  exists (x +:+ sep +:+ pre). by rewrite IH, !append_assoc.
Qed.

Lemma concat_snoc_nonempty sep l b :
  b ≠ "" -> String.concat sep (l ++ [b]) ≠ "".
Proof.
  intros Hb. destruct (concat_snoc sep l b) as [pre ->].
  destruct pre; [done|]. by rewrite append_cons.
Qed.

Lemma last_is_slash_append a b :
  b ≠ "" -> Path.last_is_slash (a +:+ b) = Path.last_is_slash b.
Proof.
  intros Hb. induction a as [|c a IH]; [done|].
  rewrite append_cons. cbn [Path.last_is_slash].
  destruct (a +:+ b) eqn:E; [|done].
  destruct a; [by rewrite append_empty_l in E | by rewrite append_cons in E].
Qed.

Lemma last_is_slash_slash_free b :
  slash_free b = true -> Path.last_is_slash b = false.
Proof.
  induction b as [|c b IH]; [done|]. unfold slash_free. simpl.
  intros [Hc Hb]%andb_true_iff. apply negb_true_iff in Hc.
  destruct b; [done|]. by apply IH.
Qed.

(** Normalizing a path that ends in a clean segment keeps that segment at
    the end. *)
Lemma normalize_ends_with p b :
  clean_segment b = true ->
  (p = b \/ exists a, p = a +:+ "/" +:+ b) ->
  exists pre, Path.normalize p = pre +:+ b.
Proof.
  intros Hb Hp.
  pose proof (clean_segment_tests _ Hb) as (Hfree & Hne & _).
  assert (Hb' : b ≠ "") by (intros ->; discriminate).
  assert (Hsegs : exists l, Path.segments p = l ++ [b]).
  { destruct Hp as [->|[a ->]].
    - exists []. by apply segments_slash_free.
    - exists (Path.segments a).
      by rewrite segments_append_slash, (segments_slash_free _ Hfree). }
  assert (Htrail : Path.last_is_slash p = false).
  { destruct Hp as [->|[a ->]]; [by apply last_is_slash_slash_free|].
    rewrite <- append_assoc, last_is_slash_append by done.
    by apply last_is_slash_slash_free. }
  destruct Hsegs as [l Hl]. unfold Path.normalize.
  destruct p as [|c0 p0] eqn:Ep.
  { destruct Hp as [<-|[a Ha]]; [done|]. by destruct a. }
  rewrite Hl, Htrail. unfold JS.join. rewrite resolve_dots_snoc by done.
  set (kept := Path.resolve_dots _ [] l).
  destruct (concat_snoc "/" kept b) as [pre Hpre].
  pose proof (concat_snoc_nonempty "/" kept b Hb') as Hbody.
  destruct (String.concat "/" (kept ++ [b])) as [|c1 body] eqn:Ebody; [done|].
  destruct (Path.first_is_slash (String c0 p0)).
  - exists ("/" +:+ pre). by rewrite Hpre, append_assoc.
  - by exists pre.
Qed.

Lemma join_ends_with a b :
  clean_segment b = true -> exists pre, Path.join a b = pre +:+ b.
Proof.
  intros Hb. pose proof (clean_segment_tests _ Hb) as (_ & Hne & _).
  unfold Path.join. destruct b as [|cb rb] eqn:Eb; [done|]. rewrite <- Eb.
  destruct a as [|ca ra] eqn:Ea.
  - rewrite Eb. rewrite <- Eb.
    apply normalize_ends_with; [by rewrite Eb | by left].
  - rewrite Eb. rewrite <- Eb. rewrite <- Ea.
    apply normalize_ends_with; [by rewrite Eb|]. right. by exists a.
Qed.

Lemma suffix_comparable p1 b1 p2 b2 :
  p1 +:+ b1 = p2 +:+ b2 ->
  (String.length b2 <= String.length b1)%nat ->
  exists w, b1 = w +:+ b2.
Proof.
  revert p2. induction p1 as [|c p1 IH]; intros p2 H Hlen.
  - exists p2. by rewrite append_empty_l in H.
  - destruct p2 as [|c' p2].
    + rewrite append_empty_l in H. subst b2.
      rewrite append_cons in Hlen. simpl in Hlen.
      rewrite length_append in Hlen. lia.
    + rewrite !append_cons in H. inversion H. by apply (IH p2).
Qed.

(** A string of digits and dashes has no other character. *)
Lemma digits_and_dashes_avoid c0 s :
  is_digit_or_dash c0 = false ->
  all_chars is_digit_or_dash s = true ->
  all_chars (fun c => negb (Ascii.eqb c c0)) s = true.
Proof.
  intros H0. apply all_chars_weaken. intros c Hc.
  destruct (Ascii.eqb_spec c c0) as [->|_]; [congruence | done].
Qed.

Lemma session_file_name_clean d :
  clean_segment ("session_" +:+ formatTimeDashMs d +:+ ".md") = true.
Proof.
  unfold clean_segment. rewrite !append_cons.
  cbn [String.eqb Ascii.eqb Bool.eqb negb andb].
  rewrite !andb_true_r. unfold slash_free. cbn [all_chars].
  rewrite append_empty_l, all_chars_append.
  change (fun c => negb (Path.is_slash c))
    with (fun c => negb (Ascii.eqb c "/")).
  by rewrite (digits_and_dashes_avoid "/" _ eq_refl
                (formatTimeDashMs_chars d)).
Qed.

(** The session file and the template never share a path. *)
Lemma outPath_not_templatePath root d :
  outPathOf root d ≠ templatePathOf (logRootOf root).
Proof.
  set (base := "session_" +:+ formatTimeDashMs d +:+ ".md").
  destruct (join_ends_with (outDirOf root d) base
              (session_file_name_clean d)) as [pre1 H1].
  destruct (join_ends_with (logRootOf root) "_TEMPLATE.md" eq_refl)
    as [pre2 H2].
  unfold outPathOf, templatePathOf. fold base. rewrite H1, H2. intros Heq.
  destruct (suffix_comparable _ _ _ _ Heq) as [w Hw].
  { unfold base, formatTimeDashMs. rewrite !length_append. simpl. lia. }
  assert (Hno : all_chars (fun c => negb (Ascii.eqb c "T")) base = true).
  { unfold base. rewrite !all_chars_append.
    by rewrite (digits_and_dashes_avoid "T" _ eq_refl
                  (formatTimeDashMs_chars d)). }
  rewrite Hw, all_chars_append, andb_comm in Hno. discriminate Hno.
Qed.

(** ** Blank transcripts *)

Lemma trimStart_white_only skip s :
  white_only_go skip s = true -> JS.trimStart_go skip s = "".
Proof.
  revert skip. induction s as [|c s IH]; intros skip; [done|].
  cbn [white_only_go JS.trimStart_go]. destruct skip as [|k]; [|apply IH].
  destruct (JS.leading_white (String c s)) as [w|]; [apply IH | done].
Qed.

Lemma trim_blank t :
  blank t = true -> JS.trim (JS.nullish t "") = "".
Proof.
  destruct t as [s|]; [|done]. simpl. intros H.
  unfold JS.trim, JS.trimStart. by rewrite trimStart_white_only.
Qed.

(** The failing call of C3: a transcript of three spaces, a well-formed
    [savedAt], and a workspace with nothing in it.  The handler answers
    with the missing-transcript failure, but only after it has created the
    date directory and written the default template. *)
Theorem C3_blank_transcript_rejected_after_effects :
  let args :=
    mkArgs (Some "   ") (Some "2024-03-05T09:07:02.004") (Some "/tmp/ws") in
  let run := saveCopilotSession sample_env args Fs.empty in
  blank (transcriptMarkdown args) = true
  /\ fst run = Fs.Returned (error no_transcript_message)
  /\ Fs.is_dir (snd run) "/tmp/ws/copilot-session_log/05-03-2024" = true
  /\ Fs.files (snd run) !! "/tmp/ws/copilot-session_log/_TEMPLATE.md"
     = Some defaultTemplate
  /\ Fs.is_dir Fs.empty "/tmp/ws/copilot-session_log/05-03-2024" = false
  /\ Fs.files Fs.empty !! "/tmp/ws/copilot-session_log/_TEMPLATE.md" = None.
Proof. vm_compute. repeat split; reflexivity. Qed.

(** C5, as stated, fails when [savedAt] is rejected first: the failure
    then speaks of the date format, not of the transcript. *)
Lemma C5_counterexample_savedAt_first :
  ~ (forall env args fs,
       blank (transcriptMarkdown args) = true ->
       exists message,
         fst (saveCopilotSession env args fs) = Fs.Returned (error message)
         /\ JS.includes "transcript" message = true).
Proof.
  intros claim.
  destruct (claim sample_env
              (mkArgs None (Some "not-a-date") (Some "/tmp/ws"))
              Fs.empty eq_refl) as (message & Hrun & Hmentions).
  vm_compute in Hrun. inversion Hrun; subst message.
  vm_compute in Hmentions. discriminate Hmentions.
Qed.

(** C5 (amended): a call whose transcript is absent, empty or made of
    white space only never yields a saved path and writes no session file.
    A failure it returns asks for the transcript ([transcriptMarkdown]),
    except when [savedAt] is rejected: that check comes first, and the
    failure is then the ISO-8601 one, returned with the store untouched. *)
Theorem C5_blank_transcript_never_saved :
  forall env args fs,
    blank (transcriptMarkdown args) = true ->
    let root := JS.nullish (workspaceRoot args) (process_cwd env) in
    let run := saveCopilotSession env args fs in
    (forall p, fst run ≠ Fs.Returned (savedPath p))
    /\ (forall d,
          stamp env args = Some d ->
          Fs.files (snd run) !! outPathOf root d
          = Fs.files fs !! outPathOf root d)
    /\ (forall d message,
          stamp env args = Some d ->
          fst run = Fs.Returned (error message) ->
          message = no_transcript_message)
    /\ (stamp env args = None ->
        run = (Fs.Returned (error invalid_savedAt_message), fs))
    /\ JS.includes "transcriptMarkdown" no_transcript_message = true.
Proof.
  intros env args fs Hblank root run.
  pose proof (trim_blank _ Hblank) as Htrim.
  assert (Hstamped : forall d,
            stamp env args = Some d ->
            run = (await ensureDir (outDirOf root d);
                   let! _ := await loadOrCreateTemplate (logRootOf root) in
                   Fs.ret (error no_transcript_message)) fs).
  { intros d Hd. unfold run.
    rewrite (saveCopilotSession_stamped _ _ _ Hd). cbv zeta.
    fold root. by rewrite Htrim. }
  destruct (stamp env args) as [d|] eqn:Hd.
  - specialize (Hstamped d eq_refl). unfold Fs.bind in Hstamped.
    assert (Hframe : Fs.files (snd run) !! outPathOf root d
                     = Fs.files fs !! outPathOf root d).
    { destruct (ensureDir (outDirOf root d) fs) as [[[]|e1] s1] eqn:Hmk.
      - destruct (loadOrCreateTemplate (logRootOf root) s1)
          as [o s2] eqn:Hload.
        destruct (loadOrCreateTemplate_frame _ _ _ _ Hload) as [_ Hfr].
        assert (Hsnd : snd run = s2) by (rewrite Hstamped; by destruct o).
        rewrite Hsnd, (Hfr _ (outPath_not_templatePath root d)).
        by rewrite (mkdir_recursive_files _ _ _ _ Hmk).
      - rewrite Hstamped. simpl.
        by rewrite (mkdir_recursive_files _ _ _ _ Hmk). }
    assert (Hresult : forall r, fst run = Fs.Returned r ->
                                r = error no_transcript_message).
    { intros r. rewrite Hstamped.
      destruct (ensureDir (outDirOf root d) fs) as [[[]|e1] s1];
        [|discriminate].
      destruct (loadOrCreateTemplate (logRootOf root) s1) as [[t|e2] s2];
        [|discriminate].
      simpl. by intros [= <-]. }
    split; [|split; [|split; [|split]]].
    + intros p Hp. by specialize (Hresult _ Hp).
    + intros d' [= <-]. exact Hframe.
    + intros d' message _ Hm. specialize (Hresult _ Hm). by inversion Hresult.
    + discriminate.
    + reflexivity.
  - unfold run. rewrite saveCopilotSession_invalid by done. simpl.
    split; [|split; [|split; [|split]]]; try done.
Qed.

Lemma C5_witness_white_space :
  let args :=
    mkArgs (Some (JS.bytes [32; 226; 128; 131; 10]%nat))
      (Some "2024-03-05T09:07:02.004") (Some "/tmp/ws") in
  let run := saveCopilotSession sample_env args Fs.empty in
  (forall p, fst run ≠ Fs.Returned (savedPath p))
  /\ Fs.files (snd run)
       !! "/tmp/ws/copilot-session_log/05-03-2024/session_09-07-02-004.md"
     = None
  /\ fst run = Fs.Returned (error no_transcript_message).
Proof.
  intros args run.
  destruct (C5_blank_transcript_never_saved sample_env args Fs.empty
              eq_refl) as (Hnever & Hnofile & Hfailure & _).
  split; [exact Hnever|]. split.
  - pose proof (Hnofile example_date eq_refl) as Hsame.
    vm_compute in Hsame |- *. exact Hsame.
  - assert (Hrun : exists message, fst run = Fs.Returned (error message))
      by (eexists; vm_compute; reflexivity).
    destruct Hrun as [message Hm].
    rewrite Hm. by rewrite (Hfailure example_date message eq_refl Hm).
Defined.

(** ** The template store *)

Lemma is_file_lookup s p content :
  Fs.files s !! p = Some content -> Fs.is_file s p = true.
Proof.
  intros H. unfold Fs.is_file. apply bool_decide_eq_true. by rewrite H.
Qed.

(** C7, as stated, fails in two ways.  [loadOrCreateTemplate] creates no
    directory: with nothing at the template path and the log directory
    missing, [fs.writeFile] rejects and nothing is written.  And with a
    directory in place of the template file, [fileExists] answers yes and
    [fs.readFile] rejects. *)
Lemma C7_counterexample_no_directory :
  ~ (forall logRoot fs,
       Fs.is_file fs (Path.join logRoot "_TEMPLATE.md") = false ->
       Fs.is_dir fs (Path.join logRoot "_TEMPLATE.md") = false ->
       exists fs',
         loadOrCreateTemplate logRoot fs
         = (Fs.Returned defaultTemplate, fs'))
  /\ ~ (forall logRoot fs,
         Fs.is_file fs (Path.join logRoot "_TEMPLATE.md") = false ->
         (forall holder,
             Fs.parent (Path.join logRoot "_TEMPLATE.md") = Some holder ->
             Fs.is_dir fs holder = true) ->
         exists fs',
           loadOrCreateTemplate logRoot fs
           = (Fs.Returned defaultTemplate, fs')).
Proof.
  split; intros claim.
  - destruct (claim "/tmp/ws/nolog" Fs.empty) as [fs' H];
      [vm_compute; reflexivity .. |].
    vm_compute in H. discriminate H.
  - destruct (claim "/tmp/ws/log"
                {| Fs.dirs := {[ "/tmp/ws/log";
                                 "/tmp/ws/log/_TEMPLATE.md" ]};
                   Fs.files := ∅ |}) as [fs' H].
    + vm_compute. reflexivity.
    + intros holder Hholder. vm_compute in Hholder.
      inversion Hholder. vm_compute. reflexivity.
    + vm_compute in H. discriminate H.
Qed.

(** C7 (amended): with the template path
    [path.join(logRoot, "_TEMPLATE.md")], [loadOrCreateTemplate] returns
    the contents of the file at that path as they are, leaving the store
    alone, when the file exists; when nothing exists at that path and the
    directory that is to hold it is there, it writes the default template
    to that path and returns it.  The default template opens with a
    heading that carries the date and the time placeholders, and it
    contains [{{TRANSCRIPT}}]. *)
Theorem C7_loadOrCreateTemplate :
  forall logRoot fs,
    let templatePath := Path.join logRoot "_TEMPLATE.md" in
    (forall content,
        Fs.files fs !! templatePath = Some content ->
        loadOrCreateTemplate logRoot fs = (Fs.Returned content, fs))
    /\ (Fs.is_file fs templatePath = false ->
        Fs.is_dir fs templatePath = false ->
        (forall holder, Fs.parent templatePath = Some holder ->
                        Fs.is_dir fs holder = true) ->
        loadOrCreateTemplate logRoot fs
          = (Fs.Returned defaultTemplate,
             {| Fs.dirs := Fs.dirs fs;
                Fs.files := <[templatePath := defaultTemplate]>
                              (Fs.files fs) |}))
    /\ (exists rest,
          defaultTemplate
            = "# Copilot chat session {{DATE}} {{TIME_COLON}}"
              +:+ String "010" rest
          /\ JS.includes "{{TRANSCRIPT}}" rest = true)
    /\ JS.includes "{{TRANSCRIPT}}" defaultTemplate = true.
Proof.
  intros logRoot fs templatePath. split; [|split; [|split]].
  - intros content Hfile. unfold loadOrCreateTemplate. fold templatePath.
    rewrite (bind_returned _ _ _ _ _ (fileExists_spec templatePath fs)).
    rewrite (is_file_lookup _ _ _ Hfile), orb_true_r.
    unfold Fs.readFile. by rewrite Hfile.
  - intros Hnofile Hnodir Hholder. unfold loadOrCreateTemplate.
    fold templatePath.
    rewrite (bind_returned _ _ _ _ _ (fileExists_spec templatePath fs)).
    rewrite Hnofile, Hnodir. simpl. unfold Fs.bind, Fs.writeFile.
    rewrite Hnodir. destruct (Fs.parent templatePath) as [holder|]; [|done].
    by rewrite (Hholder holder eq_refl).
  - eexists. split; [reflexivity|]. vm_compute. reflexivity.
  - vm_compute. reflexivity.
Qed.

Lemma C7_witness :
  let withTemplate :=
    {| Fs.dirs := {[ "/tmp/ws/copilot-session_log" ]};
       Fs.files := {[ "/tmp/ws/copilot-session_log/_TEMPLATE.md"
                      := "Notes of {{DATE}}: {{TRANSCRIPT}}" ]} |} in
  let withoutTemplate :=
    {| Fs.dirs := {[ "/tmp/ws/copilot-session_log" ]}; Fs.files := ∅ |} in
  loadOrCreateTemplate "/tmp/ws/copilot-session_log" withTemplate
    = (Fs.Returned "Notes of {{DATE}}: {{TRANSCRIPT}}", withTemplate)
  /\ loadOrCreateTemplate "/tmp/ws/copilot-session_log" withoutTemplate
    = (Fs.Returned defaultTemplate,
       {| Fs.dirs := {[ "/tmp/ws/copilot-session_log" ]};
          Fs.files := {[ "/tmp/ws/copilot-session_log/_TEMPLATE.md"
                         := defaultTemplate ]} |}).
Proof.
  intros withTemplate withoutTemplate. split.
  - destruct (C7_loadOrCreateTemplate "/tmp/ws/copilot-session_log"
                withTemplate) as [Hload _].
    apply Hload. vm_compute. reflexivity.
  - destruct (C7_loadOrCreateTemplate "/tmp/ws/copilot-session_log"
                withoutTemplate) as (_ & Hcreate & _).
    rewrite Hcreate.
    + vm_compute. reflexivity.
    + vm_compute. reflexivity.
    + vm_compute. reflexivity.
    + intros holder Hholder. vm_compute in Hholder.
      inversion Hholder. vm_compute. reflexivity.
Defined.

(** ** Decimal printing *)

Lemma holds_from_spec check count z :
  holds_from check count z = true ->
  forall k, z <= k < z + Z.of_nat count -> check k = true.
Proof.
  revert z. induction count as [|n IH]; intros z H k Hk; [lia|].
  simpl in H. apply andb_true_iff in H as [Hz Hrest].
  destruct (Z.eq_dec k z) as [->|Hne]; [done|].
  apply (IH (z + 1)); [done|lia].
Qed.

Lemma holds_from_range check count z :
  holds_from check (Z.to_nat count) z = true ->
  forall k, z <= k < z + count -> check k = true.
Proof.
  intros H k Hk. apply (holds_from_spec _ _ _ H). lia.
Qed.

Lemma digit_char_is_digit k :
  0 <= k <= 9 ->
  is_digit (digit_char k) = true
  /\ Z.of_nat (nat_of_ascii (digit_char k) - 48) = k.
Proof.
  intros Hk.
  assert (Hall : holds_from
            (fun k => is_digit (digit_char k)
                      && (Z.of_nat (nat_of_ascii (digit_char k) - 48) =? k))
            (Z.to_nat 10) 0 = true) by (vm_compute; reflexivity).
  pose proof (holds_from_range _ _ _ Hall k ltac:(lia)) as H.
  apply andb_true_iff in H as [H1 H2]. split; [done|]. by apply Z.eqb_eq.
Qed.

Lemma pad2_two_digits n : 0 <= n <= 99 -> pad2 n = two_digits n.
Proof.
  intros Hn.
  assert (Hall : holds_from (fun n => String.eqb (pad2 n) (two_digits n))
                   (Z.to_nat 100) 0 = true) by (vm_compute; reflexivity).
  apply String.eqb_eq, (holds_from_range _ _ _ Hall). lia.
Qed.

Lemma pad3_three_digits n : 0 <= n <= 999 -> pad3 n = three_digits n.
Proof.
  intros Hn.
  assert (Hall : holds_from (fun n => String.eqb (pad3 n) (three_digits n))
                   (Z.to_nat 1000) 0 = true) by (vm_compute; reflexivity).
  apply String.eqb_eq, (holds_from_range _ _ _ Hall). lia.
Qed.

Lemma String_of_Z_four_digits y :
  1000 <= y <= 9999 -> JS.String_of_Z y = four_digits y.
Proof.
  intros Hy.
  assert (Hall : holds_from
                   (fun y => String.eqb (JS.String_of_Z y) (four_digits y))
                   (Z.to_nat 9000) 1000 = true)
    by (vm_compute; reflexivity).
  apply String.eqb_eq, (holds_from_range _ _ _ Hall). lia.
Qed.

Lemma matches_form_digit f form c s :
  is_letter f = true ->
  matches_form (String f form) (String c s)
  = is_digit c && matches_form form s.
Proof. intros H. simpl. by rewrite H. Qed.

Lemma matches_form_two_digits form n s :
  0 <= n <= 99 ->
  matches_form form s = true ->
  forall f1 f2, is_letter f1 = true -> is_letter f2 = true ->
  matches_form (String f1 (String f2 form)) (two_digits n +:+ s) = true.
Proof.
  intros Hn Hs f1 f2 H1 H2. unfold two_digits.
  rewrite !append_cons, append_empty_l.
  rewrite !matches_form_digit by done.
  destruct (digit_char_is_digit (n / 10)) as [-> _];
    [Z.div_mod_to_equations; lia|].
  destruct (digit_char_is_digit (n mod 10)) as [-> _];
    [Z.div_mod_to_equations; lia|].
  done.
Qed.

Lemma digits_value_from_two_digits acc n s :
  0 <= n <= 99 ->
  digits_value_from acc (two_digits n +:+ s)
  = digits_value_from (100 * acc + n) s.
Proof.
  intros Hn. unfold two_digits. rewrite !append_cons, append_empty_l.
  cbn [digits_value_from].
  destruct (digit_char_is_digit (n / 10)) as [-> ->];
    [Z.div_mod_to_equations; lia|].
  destruct (digit_char_is_digit (n mod 10)) as [-> ->];
    [Z.div_mod_to_equations; lia|].
  f_equal. Z.div_mod_to_equations; lia.
Qed.

Lemma digits_value_two_digits n :
  0 <= n <= 99 -> digits_value (two_digits n) = Some n.
Proof.
  intros Hn. change (digits_value (two_digits n))
    with (digits_value_from 0 (two_digits n)).
  rewrite <- (append_empty_r (two_digits n)).
  rewrite digits_value_from_two_digits by done. simpl; f_equal; lia.
Qed.

Lemma digits_value_three_digits n :
  0 <= n <= 999 -> digits_value (three_digits n) = Some n.
Proof.
  intros Hn. unfold three_digits, digits_value.
  cbn [digits_value_from].
  destruct (digit_char_is_digit (n / 100)) as [-> ->];
    [Z.div_mod_to_equations; lia|].
  rewrite <- (append_empty_r (two_digits _)).
  rewrite digits_value_from_two_digits by (Z.div_mod_to_equations; lia).
  simpl; f_equal; Z.div_mod_to_equations; lia.
Qed.

Lemma digits_value_four_digits n :
  0 <= n <= 9999 -> digits_value (four_digits n) = Some n.
Proof.
  intros Hn. unfold four_digits, three_digits, digits_value.
  cbn [digits_value_from].
  destruct (digit_char_is_digit (n / 1000)) as [-> ->];
    [Z.div_mod_to_equations; lia|].
  destruct (digit_char_is_digit (n mod 1000 / 100)) as [-> ->];
    [Z.div_mod_to_equations; lia|].
  rewrite <- (append_empty_r (two_digits _)).
  rewrite digits_value_from_two_digits by (Z.div_mod_to_equations; lia).
  simpl; f_equal; Z.div_mod_to_equations; lia.
Qed.

Lemma length_two_digits n : String.length (two_digits n) = 2%nat.
Proof. reflexivity. Qed.

Lemma substring_whole s : String.substring 0 (String.length s) s = s.
Proof. induction s as [|c s IH]; [done|]. simpl. by rewrite IH. Qed.

Lemma substring_prefix s t :
  String.substring 0 (String.length s) (s +:+ t) = s.
Proof.
  induction s as [|c s IH]; [by destruct t|].
  rewrite append_cons. simpl. by rewrite IH.
Qed.

Lemma substring_skip s t n m :
  String.substring (String.length s + n) m (s +:+ t)
  = String.substring n m t.
Proof.
  induction s as [|c s IH]; [done|]. rewrite append_cons. simpl. exact IH.
Qed.

(** ** The formatted date and time *)

Lemma Date_in_range_bounds d :
  Date_in_range d = true ->
  -271821 <= getFullYear d <= 275760 /\ 0 <= getMonth d <= 11
  /\ 1 <= getDate d <= 31 /\ 0 <= getHours d <= 23
  /\ 0 <= getMinutes d <= 59 /\ 0 <= getSeconds d <= 59
  /\ 0 <= getMilliseconds d <= 999.
Proof.
  unfold Date_in_range. rewrite !andb_true_iff, !Z.leb_le. tauto.
Qed.

Lemma formatTimeDash_digits d :
  Date_in_range d = true ->
  formatTimeDash d
  = two_digits (getHours d) +:+ "-" +:+ two_digits (getMinutes d)
      +:+ "-" +:+ two_digits (getSeconds d).
Proof.
  intros Hd%Date_in_range_bounds. unfold formatTimeDash.
  by rewrite !pad2_two_digits by lia.
Qed.

Lemma formatTimeColon_digits d :
  Date_in_range d = true ->
  formatTimeColon d
  = two_digits (getHours d) +:+ ":" +:+ two_digits (getMinutes d)
      +:+ ":" +:+ two_digits (getSeconds d).
Proof.
  intros Hd%Date_in_range_bounds. unfold formatTimeColon.
  by rewrite !pad2_two_digits by lia.
Qed.

Lemma formatTimeDashMs_digits d :
  Date_in_range d = true ->
  formatTimeDashMs d
  = two_digits (getHours d) +:+ "-" +:+ two_digits (getMinutes d)
      +:+ "-" +:+ two_digits (getSeconds d)
      +:+ "-" +:+ three_digits (getMilliseconds d).
Proof.
  intros Hd. unfold formatTimeDashMs. rewrite (formatTimeDash_digits _ Hd).
  apply Date_in_range_bounds in Hd.
  rewrite pad3_three_digits by lia. reflexivity.
Qed.

Lemma formatDateFolder_digits d :
  Date_in_range d = true ->
  formatDateFolder d
  = two_digits (getDate d) +:+ "-" +:+ two_digits (getMonth d + 1)
      +:+ "-" +:+ JS.String_of_Z (getFullYear d).
Proof.
  intros Hd%Date_in_range_bounds. unfold formatDateFolder.
  by rewrite !pad2_two_digits by lia.
Qed.

Lemma matches_form_three_digits n f1 f2 f3 :
  0 <= n <= 999 ->
  is_letter f1 = true -> is_letter f2 = true -> is_letter f3 = true ->
  matches_form (String f1 (String f2 (String f3 ""))) (three_digits n)
  = true.
Proof.
  intros Hn H1 H2 H3. unfold three_digits.
  rewrite matches_form_digit by done.
  destruct (digit_char_is_digit (n / 100)) as [-> _];
    [Z.div_mod_to_equations; lia|].
  rewrite <- (append_empty_r (two_digits _)).
  apply matches_form_two_digits; try done. Z.div_mod_to_equations; lia.
Qed.

Lemma matches_form_four_digits n f1 f2 f3 f4 :
  0 <= n <= 9999 ->
  is_letter f1 = true -> is_letter f2 = true -> is_letter f3 = true ->
  is_letter f4 = true ->
  matches_form (String f1 (String f2 (String f3 (String f4 ""))))
    (four_digits n) = true.
Proof.
  intros Hn H1 H2 H3 H4. unfold four_digits.
  rewrite matches_form_digit by done.
  destruct (digit_char_is_digit (n / 1000)) as [-> _];
    [Z.div_mod_to_equations; lia|].
  apply matches_form_three_digits; try done. Z.div_mod_to_equations; lia.
Qed.

Lemma matches_form_dash form s :
  matches_form (String "-" form) ("-" +:+ s) = matches_form form s.
Proof. reflexivity. Qed.

Lemma matches_form_colon form s :
  matches_form (String ":" form) (":" +:+ s) = matches_form form s.
Proof. reflexivity. Qed.

(** One step of a proof that a string of digit groups has a form. *)
Ltac form_step :=
  lazymatch goal with
  | |- matches_form _ ("-" +:+ _) = true =>
      refine (eq_trans (matches_form_dash _ _) _)
  | |- matches_form _ (":" +:+ _) = true =>
      refine (eq_trans (matches_form_colon _ _) _)
  | |- matches_form _ (two_digits _ +:+ _) = true =>
      apply matches_form_two_digits; [lia | | reflexivity | reflexivity]
  | |- matches_form _ (three_digits _) = true =>
      apply matches_form_three_digits; [lia | reflexivity ..]
  | |- matches_form _ (four_digits _) = true =>
      apply matches_form_four_digits; [lia | reflexivity ..]
  end.

Lemma field_at_0 a s n :
  String.length a = n -> field_value (a +:+ s) 0 n = digits_value a.
Proof. intros <-. unfold field_value. by rewrite substring_prefix. Qed.

Lemma field_skip a s k n start :
  start = (String.length a + k)%nat ->
  field_value (a +:+ s) start n = field_value s k n.
Proof. intros ->. unfold field_value. by rewrite substring_skip. Qed.

Lemma field_whole a n :
  String.length a = n -> field_value a 0 n = digits_value a.
Proof. intros <-. unfold field_value. by rewrite substring_whole. Qed.

(** Reading a field of digits out of a string of groups: pass over a
    group and the separator after it. *)
Ltac skip_group start :=
  erewrite (field_skip _ _ _ _ start) by reflexivity;
  erewrite (field_skip _ _ _ _ (start - 2)) by reflexivity.

(** The time of day, in the form used for file names. *)
Lemma formatTimeDashMs_form d :
  Date_in_range d = true ->
  matches_form "HH-MM-SS-mmm" (formatTimeDashMs d) = true
  /\ field_value (formatTimeDashMs d) 0 2 = Some (getHours d)
  /\ field_value (formatTimeDashMs d) 3 2 = Some (getMinutes d)
  /\ field_value (formatTimeDashMs d) 6 2 = Some (getSeconds d)
  /\ field_value (formatTimeDashMs d) 9 3 = Some (getMilliseconds d).
Proof.
  intros Hd. rewrite (formatTimeDashMs_digits _ Hd).
  apply Date_in_range_bounds in Hd.
  destruct Hd as (_ & _ & _ & Hh & Hm & Hs & Hms).
  split; [by repeat form_step|].
  split; [rewrite field_at_0 by reflexivity;
          apply digits_value_two_digits; lia|].
  split; [skip_group 3%nat; rewrite field_at_0 by reflexivity;
          apply digits_value_two_digits; lia|].
  split; [skip_group 6%nat; skip_group 3%nat;
          rewrite field_at_0 by reflexivity;
          apply digits_value_two_digits; lia|].
  skip_group 9%nat; skip_group 6%nat; skip_group 3%nat.
  rewrite field_whole by reflexivity.
  apply digits_value_three_digits; lia.
Qed.

(** The date folder: day and month on two digits, then the year as
    [String] prints it; on four digits when it has four. *)
Lemma formatDateFolder_form d :
  Date_in_range d = true ->
  (exists day month,
      formatDateFolder d
      = day +:+ "-" +:+ month +:+ "-" +:+ JS.String_of_Z (getFullYear d)
      /\ matches_form "DD" day = true
      /\ matches_form "MM" month = true
      /\ digits_value day = Some (getDate d)
      /\ digits_value month = Some (getMonth d + 1))
  /\ (1000 <= getFullYear d <= 9999 ->
      matches_form "DD-MM-YYYY" (formatDateFolder d) = true
      /\ field_value (formatDateFolder d) 0 2 = Some (getDate d)
      /\ field_value (formatDateFolder d) 3 2 = Some (getMonth d + 1)
      /\ field_value (formatDateFolder d) 6 4 = Some (getFullYear d)).
Proof.
  intros Hd. rewrite (formatDateFolder_digits _ Hd).
  apply Date_in_range_bounds in Hd.
  destruct Hd as (_ & Hmo & Hday & _).
  split.
  - exists (two_digits (getDate d)), (two_digits (getMonth d + 1)).
    split; [done|].
    split; [rewrite <- (append_empty_r (two_digits _));
            apply matches_form_two_digits; done || lia|].
    split; [rewrite <- (append_empty_r (two_digits _));
            apply matches_form_two_digits; done || lia|].
    split; apply digits_value_two_digits; lia.
  - intros Hy. rewrite (String_of_Z_four_digits _ Hy).
    split; [by repeat form_step|].
    split; [rewrite field_at_0 by reflexivity;
            apply digits_value_two_digits; lia|].
    split; [skip_group 3%nat; rewrite field_at_0 by reflexivity;
            apply digits_value_two_digits; lia|].
    skip_group 6%nat; skip_group 3%nat.
    rewrite field_whole by reflexivity.
    apply digits_value_four_digits; lia.
Qed.

(** ** Normalized absolute roots *)

Lemma abs_path_app l1 l2 : abs_path (l1 ++ l2) = abs_path l1 +:+ abs_path l2.
Proof.
  induction l1 as [|x l1 IH]; [done|].
  rewrite <- app_comm_cons. cbn [abs_path]. by rewrite IH, !append_assoc.
Qed.

Lemma abs_path_snoc l b : abs_path (l ++ [b]) = abs_path l +:+ "/" +:+ b.
Proof. rewrite abs_path_app. cbn [abs_path]. by rewrite append_empty_r. Qed.

Lemma abs_path_concat segs :
  segs ≠ [] -> abs_path segs = "/" +:+ String.concat "/" segs.
Proof.
  induction segs as [|x segs IH]; [done|]. intros _. cbn [abs_path].
  destruct segs as [|y segs]; [by rewrite append_empty_r|].
  rewrite IH by done. reflexivity.
Qed.

Lemma segments_abs_path segs :
  Forall (fun seg => clean_segment seg = true) segs ->
  segs ≠ [] ->
  Path.segments (abs_path segs) = "" :: segs.
Proof.
  induction segs as [|x segs IH]; [done|]. intros Hclean _.
  apply Forall_cons in Hclean as [Hx Hclean].
  apply clean_segment_tests in Hx as (Hfree & _).
  cbn [abs_path]. destruct segs as [|y segs].
  - cbn [abs_path]. rewrite append_empty_r.
    change ("/" +:+ x) with (String "/" x). cbn [Path.segments].
    change (Path.is_slash "/") with true. cbn iota.
    by rewrite (segments_slash_free _ Hfree).
  - change ("/" +:+ x +:+ abs_path (y :: segs))
      with ("" +:+ "/" +:+ (x +:+ abs_path (y :: segs))).
    rewrite segments_append_slash.
    change (abs_path (y :: segs)) with ("/" +:+ y +:+ abs_path segs).
    rewrite segments_append_slash, (segments_slash_free _ Hfree).
    specialize (IH Hclean ltac:(done)).
    change (abs_path (y :: segs)) with ("" +:+ "/" +:+ y +:+ abs_path segs)
      in IH.
    rewrite segments_append_slash in IH. simpl in IH. inversion IH as [Hy].
    simpl. by rewrite Hy.
Qed.

Lemma resolve_dots_clean isAbsolute stack segs :
  Forall (fun seg => clean_segment seg = true) segs ->
  Path.resolve_dots isAbsolute stack segs = rev stack ++ segs.
Proof.
  intros Hclean. revert stack.
  induction Hclean as [|x segs Hx _ IH]; intros stack.
  - simpl. by rewrite app_nil_r.
  - apply clean_segment_tests in Hx as (_ & H0 & H1 & H2).
    cbn [Path.resolve_dots]. rewrite H0, H1, H2. simpl.
    rewrite IH. simpl. by rewrite <- app_assoc.
Qed.

Lemma last_is_slash_abs_path segs :
  Forall (fun seg => clean_segment seg = true) segs ->
  Path.last_is_slash (abs_path segs) = false.
Proof.
  induction 1 as [|x segs Hx _ IH]; [done|].
  apply clean_segment_tests in Hx as (Hfree & Hne & _).
  cbn [abs_path]. destruct segs as [|y segs].
  - cbn [abs_path]. rewrite append_empty_r.
    rewrite last_is_slash_append; [by apply last_is_slash_slash_free|].
    intros ->. discriminate.
  - rewrite <- append_assoc. rewrite last_is_slash_append; [done|].
    cbn [abs_path]. by rewrite append_cons.
Qed.

(** [path.normalize] leaves a normalized absolute path as it is. *)
Lemma normalize_abs_path segs :
  Forall (fun seg => clean_segment seg = true) segs ->
  segs ≠ [] ->
  Path.normalize (abs_path segs) = abs_path segs.
Proof.
  intros Hclean Hne. unfold Path.normalize.
  rewrite (segments_abs_path _ Hclean Hne), (last_is_slash_abs_path _ Hclean).
  rewrite (abs_path_concat _ Hne) at 1 2.
  rewrite append_cons, append_empty_l. cbn [Path.first_is_slash].
  change (Path.is_slash "/") with true. cbn iota.
  cbn [Path.resolve_dots String.eqb orb].
  rewrite (resolve_dots_clean _ _ _ Hclean). simpl rev. simpl app.
  unfold JS.join.
  destruct (String.concat "/" segs) as [|c body] eqn:E.
  - exfalso. destruct segs as [|x segs]; [done|].
    apply Forall_cons in Hclean as [Hx _].
    apply clean_segment_tests in Hx as (_ & Hx & _).
    cbn [String.concat] in E. destruct segs.
    + subst x. discriminate.
    + destruct x; [discriminate|]. by rewrite append_cons in E.
  - by rewrite (abs_path_concat _ Hne), E.
Qed.

(** Joining a clean segment to a normalized absolute path appends it. *)
Lemma join_abs_path segs b :
  Forall (fun seg => clean_segment seg = true) segs ->
  segs ≠ [] ->
  clean_segment b = true ->
  Path.join (abs_path segs) b = abs_path (segs ++ [b]).
Proof.
  intros Hclean Hne Hb.
  assert (Hall : Forall (fun seg => clean_segment seg = true) (segs ++ [b])).
  { apply Forall_app. split; [done|]. by apply Forall_singleton. }
  rewrite <- (normalize_abs_path (segs ++ [b]) Hall) by (by destruct segs).
  rewrite abs_path_snoc. unfold Path.join.
  apply clean_segment_tests in Hb as (_ & Hb & _).
  destruct b as [|cb rb]; [discriminate|].
  destruct segs as [|x segs]; [done|]. cbn [abs_path].
  by rewrite append_cons.
Qed.

Lemma formatDateFolder_clean d : clean_segment (formatDateFolder d) = true.
Proof.
  pose proof (formatDateFolder_chars d) as Hchars.
  unfold clean_segment, slash_free.
  change (fun c => negb (Path.is_slash c))
    with (fun c => negb (Ascii.eqb c "/")).
  rewrite (digits_and_dashes_avoid "/" _ eq_refl Hchars).
  destruct (String.eqb_spec (formatDateFolder d) "") as [E|_].
  { unfold formatDateFolder in E.
    apply (f_equal String.length) in E. rewrite !length_append in E.
    simpl in E. lia. }
  destruct (String.eqb_spec (formatDateFolder d) ".") as [E|_];
    [by rewrite E in Hchars|].
  destruct (String.eqb_spec (formatDateFolder d) "..") as [E|_];
    [by rewrite E in Hchars|].
  reflexivity.
Qed.

(** ** Normalized roots *)

Lemma concat_snoc_eq sep l b :
  l ≠ [] ->
  String.concat sep (l ++ [b]) = String.concat sep l +:+ sep +:+ b.
Proof.
  induction l as [|x l IH]; [done|]. intros _.
  destruct l as [|y l]; [reflexivity|].
  change (String.concat sep ((x :: y :: l) ++ [b]))
    with (x +:+ sep +:+ String.concat sep ((y :: l) ++ [b])).
  rewrite IH by done.
  change (String.concat sep (x :: y :: l))
    with (x +:+ sep +:+ String.concat sep (y :: l)).
  by rewrite !append_assoc.
Qed.

Lemma normalize_nonempty p :
  p ≠ "" ->
  Path.normalize p
  = let body := JS.join "/" (Path.resolve_dots (Path.first_is_slash p) []
                               (Path.segments p)) in
    match body with
    | EmptyString =>
        if Path.first_is_slash p then "/"
        else if Path.last_is_slash p then "./" else "."
    | _ =>
        let body' := if Path.last_is_slash p then body +:+ "/" else body in
        if Path.first_is_slash p then "/" +:+ body' else body'
    end.
Proof. destruct p; [done|]. intros _. reflexivity. Qed.

(** Joining a clean segment to a normalized root appends it. *)
Lemma join_normalized_root root b :
  normalized_root root = true ->
  clean_segment b = true ->
  Path.join root b = root +:+ "/" +:+ b.
Proof.
  unfold normalized_root. rewrite !andb_true_iff, !negb_true_iff.
  intros [[Hnorm%String.eqb_eq Htrail] Hdot] Hb.
  pose proof (clean_segment_tests _ Hb) as (Hfree & Hne & _).
  assert (Hb' : b ≠ "") by (intros ->; discriminate).
  assert (Hroot : root ≠ "") by (intros ->; discriminate).
  assert (Hjoin : Path.join root b = Path.normalize (root +:+ "/" +:+ b)).
  { unfold Path.join. destruct root; [done|]. by destruct b. }
  assert (Hlong : root +:+ "/" +:+ b ≠ "").
  { destruct root; [done|]. by rewrite append_cons. }
  assert (Hfirst : Path.first_is_slash (root +:+ "/" +:+ b)
                   = Path.first_is_slash root).
  { destruct root; [done|]. by rewrite append_cons. }
  assert (Hlast : Path.last_is_slash (root +:+ "/" +:+ b) = false).
  { rewrite <- append_assoc, last_is_slash_append by done.
    by apply last_is_slash_slash_free. }
  rewrite Hjoin, (normalize_nonempty _ Hlong), Hfirst, Hlast.
  rewrite segments_append_slash, (segments_slash_free _ Hfree).
  rewrite resolve_dots_snoc by done.
  rewrite (normalize_nonempty _ Hroot), Htrail in Hnorm. cbv zeta in Hnorm.
  set (kept := Path.resolve_dots (Path.first_is_slash root) []
                 (Path.segments root)) in *.
  unfold JS.join in *.
  destruct (String.concat "/" kept) as [|c body] eqn:Ekept.
  { destruct (Path.first_is_slash root).
    - subst root. discriminate Htrail.
    - subst root. discriminate Hdot. }
  rewrite concat_snoc_eq by (intros E; by rewrite E in Ekept).
  rewrite Ekept, append_cons. cbv zeta.
  destruct (Path.first_is_slash root); rewrite <- Hnorm;
    by rewrite ?append_assoc, ?append_cons.
Qed.

Lemma normalized_root_join root b :
  normalized_root root = true ->
  clean_segment b = true ->
  normalized_root (root +:+ "/" +:+ b) = true.
Proof.
  intros Hroot Hb. pose proof (join_normalized_root _ _ Hroot Hb) as Hjoin.
  pose proof (clean_segment_tests _ Hb) as (Hfree & Hne & _).
  assert (Hb' : b ≠ "") by (intros ->; discriminate).
  assert (Hne' : root ≠ "").
  { intros ->. discriminate Hroot. }
  assert (Hnorm : Path.normalize (root +:+ "/" +:+ b) = root +:+ "/" +:+ b).
  { rewrite <- Hjoin at 2. unfold Path.join. destruct root; [done|].
    by destruct b. }
  unfold normalized_root. rewrite Hnorm, String.eqb_refl.
  rewrite <- append_assoc, last_is_slash_append by done.
  rewrite (last_is_slash_slash_free _ Hfree). cbn [negb andb].
  apply negb_true_iff, String.eqb_neq. intros E.
  apply (f_equal String.length) in E. rewrite !length_append in E.
  destruct root; [done|]. destruct b; [done|]. simpl in E. lia.
Qed.

Lemma normalized_abs_path segs :
  Forall (fun seg => clean_segment seg = true) segs ->
  segs ≠ [] ->
  normalized_root (abs_path segs) = true.
Proof.
  intros Hclean Hne. unfold normalized_root.
  rewrite (normalize_abs_path _ Hclean Hne), String.eqb_refl.
  rewrite (last_is_slash_abs_path _ Hclean). cbn [negb andb].
  apply negb_true_iff, String.eqb_neq.
  destruct segs as [|x segs]; [done|]. cbn [abs_path]. by rewrite append_cons.
Qed.

(** For a normalized root the session path is the root followed by the
    log directory, the date folder and the file name. *)
Lemma outPath_normalized_root root d :
  normalized_root root = true ->
  outPathOf root d
  = root +:+ "/copilot-session_log/" +:+ formatDateFolder d
      +:+ "/session_" +:+ formatTimeDashMs d +:+ ".md".
Proof.
  intros Hroot. unfold outPathOf, outDirOf, logRootOf.
  assert (Hlog : clean_segment "copilot-session_log" = true) by reflexivity.
  rewrite (join_normalized_root _ _ Hroot Hlog).
  pose proof (normalized_root_join _ _ Hroot Hlog) as H1.
  rewrite (join_normalized_root _ _ H1 (formatDateFolder_clean d)).
  pose proof (normalized_root_join _ _ H1 (formatDateFolder_clean d)) as H2.
  rewrite (join_normalized_root _ _ H2 (session_file_name_clean d)).
  by rewrite !append_assoc.
Qed.

(** ** Allocation of the output path *)

(** C1, as stated, fails for a valid date whose year has not four digits:
    the year is printed as it is, without padding.  The last day of the
    year 999 gives the folder [31-12-999].  It also fails for a workspace
    root that [path.join] does not keep as it is: under the empty root the
    path is [copilot-session_log/...], relative to the working directory,
    not [/copilot-session_log/...]; and under [/tmp/ws/] it has one slash
    after [ws], not two. *)
Lemma C1_counterexample_year_999 :
  ~ (forall d,
       Date_in_range d = true ->
       matches_form "DD-MM-YYYY" (formatDateFolder d) = true)
  /\ ~ (forall root d,
         Date_in_range d = true ->
         outPathOf root d
         = root +:+ "/copilot-session_log/" +:+ formatDateFolder d
             +:+ "/session_" +:+ formatTimeDashMs d +:+ ".md")
  /\ ~ (forall root d,
         root ≠ "" ->
         Date_in_range d = true ->
         outPathOf root d
         = root +:+ "/copilot-session_log/" +:+ formatDateFolder d
             +:+ "/session_" +:+ formatTimeDashMs d +:+ ".md").
Proof.
  split; [|split]; intros claim.
  - specialize (claim date_year_999 eq_refl).
    vm_compute in claim. discriminate claim.
  - specialize (claim "" example_date eq_refl).
    vm_compute in claim. discriminate claim.
  - specialize (claim "/tmp/ws/" example_date ltac:(discriminate) eq_refl).
    vm_compute in claim. discriminate claim.
Qed.

(** C1 (amended): for every workspace root and every valid date,
    [timeDashMs] has the form [HH-MM-SS-mmm] and reads back as the hours,
    minutes, seconds and milliseconds of the date; [dateFolder] is the day
    and the one-based month on two digits each, then the year as [String]
    prints it, which gives the form [DD-MM-YYYY] when the year lies between
    1000 and 9999.  The output path is
    [path.join(path.join(path.join(root, "copilot-session_log"),
    dateFolder), "session_" + timeDashMs + ".md")]; for a normalized root
    (one that [path.normalize] leaves unchanged, without a slash at its
    end, and other than [.]) it is the text
    [root/copilot-session_log/dateFolder/session_timeDashMs.md]; and it is
    the path a successful call returns.  The date 2024-03-05T09:07:02.004
    gives [05-03-2024] and [09-07-02-004]. *)
Theorem C1_allocated_names_and_path :
  forall root d,
    Date_in_range d = true ->
    let dateFolder := formatDateFolder d in
    let timeDashMs := formatTimeDashMs d in
    (matches_form "HH-MM-SS-mmm" timeDashMs = true
     /\ field_value timeDashMs 0 2 = Some (getHours d)
     /\ field_value timeDashMs 3 2 = Some (getMinutes d)
     /\ field_value timeDashMs 6 2 = Some (getSeconds d)
     /\ field_value timeDashMs 9 3 = Some (getMilliseconds d))
    /\ (exists day month,
          dateFolder
          = day +:+ "-" +:+ month +:+ "-"
              +:+ JS.String_of_Z (getFullYear d)
          /\ matches_form "DD" day = true
          /\ matches_form "MM" month = true
          /\ digits_value day = Some (getDate d)
          /\ digits_value month = Some (getMonth d + 1))
    /\ (1000 <= getFullYear d <= 9999 ->
        matches_form "DD-MM-YYYY" dateFolder = true
        /\ field_value dateFolder 0 2 = Some (getDate d)
        /\ field_value dateFolder 3 2 = Some (getMonth d + 1)
        /\ field_value dateFolder 6 4 = Some (getFullYear d))
    /\ outPathOf root d
       = Path.join
           (Path.join (Path.join root "copilot-session_log") dateFolder)
           ("session_" +:+ timeDashMs +:+ ".md")
    /\ (normalized_root root = true ->
        outPathOf root d
        = root +:+ "/copilot-session_log/" +:+ dateFolder
            +:+ "/session_" +:+ timeDashMs +:+ ".md")
    /\ (forall env args fs p fs',
          stamp env args = Some d ->
          JS.nullish (workspaceRoot args) (process_cwd env) = root ->
          saveCopilotSession env args fs = (Fs.Returned (savedPath p), fs') ->
          p = outPathOf root d)
    /\ (formatDateFolder example_date = "05-03-2024"
        /\ formatTimeDashMs example_date = "09-07-02-004").
Proof.
  intros root d Hd dateFolder timeDashMs.
  split; [exact (formatTimeDashMs_form d Hd)|].
  destruct (formatDateFolder_form d Hd) as [Hparts Hfour].
  split; [exact Hparts|]. split; [exact Hfour|].
  split; [reflexivity|]. split; [|split].
  - apply outPath_normalized_root.
  - intros env args fs p fs' Hstamp Hroot Hrun.
    destruct (saveCopilotSession_savedPath _ _ _ _ _ Hrun)
      as (d' & t & Hd' & -> & _).
    rewrite Hstamp in Hd'. inversion Hd'. by rewrite Hroot.
  - split; reflexivity.
Qed.

Lemma C1_witness :
  matches_form "DD-MM-YYYY" (formatDateFolder example_date) = true
  /\ matches_form "HH-MM-SS-mmm" (formatTimeDashMs example_date) = true
  /\ outPathOf "/tmp/ws" example_date
     = "/tmp/ws/copilot-session_log/05-03-2024/session_09-07-02-004.md"
  /\ fst (saveCopilotSession sample_env
            (mkArgs (Some "hello") (Some "2024-03-05T09:07:02.004Z")
               (Some "/tmp/ws")) Fs.empty)
     = Fs.Returned (savedPath (outPathOf "/tmp/ws" example_date)).
Proof.
  destruct (C1_allocated_names_and_path "/tmp/ws" example_date eq_refl)
    as ((Htime & _) & _ & Hdate & _ & Hroot & Hrun & _).
  split; [apply Hdate; simpl; lia|]. split; [exact Htime|]. split.
  - rewrite Hroot; reflexivity.
  - set (args := mkArgs (Some "hello") (Some "2024-03-05T09:07:02.004Z")
                   (Some "/tmp/ws")).
    rewrite <- (Hrun sample_env args Fs.empty
                  "/tmp/ws/copilot-session_log/05-03-2024/session_09-07-02-004.md"
                  (snd (saveCopilotSession sample_env args Fs.empty))).
    + vm_compute. reflexivity.
    + reflexivity.
    + reflexivity.
    + vm_compute. reflexivity.
Defined.

(** ** Literal substitution *)

Lemma split_go_nonempty sep skip s : JS.split_go sep skip s ≠ [].
Proof.
  revert skip. induction s as [|c s IH]; intros skip; [done|].
  cbn [JS.split_go]. destruct skip as [|k]; [|apply IH].
  destruct (JS.startsWith sep (String c s)); [done|].
  specialize (IH 0%nat). by destruct (JS.split_go sep 0 s).
Qed.

Lemma concat_cons_head value c pieces :
  pieces ≠ [] ->
  String.concat value (JS.cons_head c pieces)
  = String c (String.concat value pieces).
Proof. destruct pieces as [|p [|q ps]]; done. Qed.

Lemma concat_cons_empty value pieces :
  pieces ≠ [] ->
  String.concat value ("" :: pieces) = value +:+ String.concat value pieces.
Proof. destruct pieces as [|p ps]; done. Qed.

(** [split] then [join] is the left-to-right replacement scan. *)
Lemma join_split_go key value skip s :
  JS.join value (JS.split_go key skip s) = replace_scan key value skip s.
Proof.
  unfold JS.join. revert skip.
  induction s as [|c s IH]; intros skip; [done|].
  cbn [JS.split_go replace_scan]. destruct skip as [|k]; [|apply IH].
  destruct (JS.startsWith key (String c s)).
  - rewrite concat_cons_empty by apply split_go_nonempty. by rewrite IH.
  - rewrite concat_cons_head by apply split_go_nonempty. by rewrite IH.
Qed.

Lemma replaceAll_scan key value s :
  key ≠ "" -> replaceAll key value s = replace_scan key value 0 s.
Proof.
  intros Hkey. unfold replaceAll, JS.split.
  destruct key; [done|]. apply join_split_go.
Qed.

Lemma token_text_nonempty k : token_text k ≠ "".
Proof. by destruct k. Qed.

Lemma token_eqb_eq a b : token_eqb a b = true <-> a = b.
Proof. split; [by destruct a, b | intros ->; by destruct b]. Qed.

(** A token does not start at a character other than the opening brace. *)
Lemma startsWith_token_other k c s :
  Ascii.eqb c "{" = false -> JS.startsWith (token_text k) (String c s) = false.
Proof.
  intros Hc. rewrite Ascii.eqb_sym in Hc.
  destruct k; cbn [token_text JS.startsWith]; by rewrite Hc.
Qed.

Lemma scan_literal k value lit rest :
  brace_free lit = true ->
  replace_scan (token_text k) value 0 (lit +:+ rest)
  = lit +:+ replace_scan (token_text k) value 0 rest.
Proof.
  induction lit as [|c lit IH]; [done|]. unfold brace_free. simpl.
  intros [Hc Hlit]%andb_true_iff. apply negb_true_iff in Hc.
  rewrite !append_cons. cbn [replace_scan].
  rewrite (startsWith_token_other _ _ _ Hc). by rewrite (IH Hlit).
Qed.

Lemma scan_same_token k value rest :
  replace_scan (token_text k) value 0 (token_text k +:+ rest)
  = value +:+ replace_scan (token_text k) value 0 rest.
Proof. destruct k; reflexivity. Qed.

Lemma scan_other_token k j value rest :
  k ≠ j ->
  replace_scan (token_text k) value 0 (token_text j +:+ rest)
  = token_text j +:+ replace_scan (token_text k) value 0 rest.
Proof. destruct k, j; intros Hne; try done; reflexivity. Qed.

(** One substitution step on a template given by plain pieces: the
    placeholders of that token are replaced, and nothing else. *)
Lemma replaceAll_pieces k value ps :
  Forall (fun p => plain p = true) ps ->
  replaceAll (token_text k) value (assemble ps)
  = assemble (map (fill_bound [(k, value)]) ps).
Proof.
  intros Hplain. rewrite replaceAll_scan by apply token_text_nonempty.
  induction Hplain as [|p ps Hp _ IH]; [done|].
  cbn [assemble map]. destruct p as [lit|j].
  - cbn [piece_text fill_bound]. rewrite (scan_literal _ _ _ _ Hp).
    by rewrite IH.
  - cbn [piece_text fill_bound binding].
    destruct (token_eqb k j) eqn:E.
    + apply token_eqb_eq in E as ->. rewrite scan_same_token.
      by rewrite IH.
    + rewrite scan_other_token, IH; [done|].
      intros ->. by rewrite (proj2 (token_eqb_eq j j) eq_refl) in E.
Qed.

Lemma fill_bound_nil p : fill_bound [] p = p.
Proof. by destruct p. Qed.

Lemma fill_bound_cons k value es p :
  fill_bound es (fill_bound [(k, value)] p) = fill_bound ((k, value) :: es) p.
Proof.
  destruct p as [lit|j]; [done|]. cbn [fill_bound binding].
  by destruct (token_eqb k j).
Qed.

Lemma fill_bound_plain k value ps :
  brace_free value = true ->
  Forall (fun p => plain p = true) ps ->
  Forall (fun p => plain p = true) (map (fill_bound [(k, value)]) ps).
Proof.
  intros Hv Hps. apply Forall_map. eapply Forall_impl; [exact Hps|].
  intros [lit|j] Hp; [done|]. cbn [fill_bound binding].
  by destruct (token_eqb k j).
Qed.

(** Sequential substitution on plain pieces, when no value but the last
    has an opening brace: every bound placeholder receives its value. *)
Lemma applyTemplate_pieces es ps :
  Forall (fun p => plain p = true) ps ->
  Forall (fun e => brace_free (snd e) = true) (removelast es) ->
  applyTemplate (assemble ps) (keyed es)
  = assemble (map (fill_bound es) ps).
Proof.
  revert ps. induction es as [|[k value] es IH]; intros ps Hps Hvalues.
  - cbn. f_equal. rewrite <- (map_id ps) at 1. apply map_ext.
    intros p. by rewrite fill_bound_nil.
  - change (applyTemplate (assemble ps) (keyed ((k, value) :: es)))
      with (applyTemplate (replaceAll (token_text k) value (assemble ps))
              (keyed es)).
    rewrite (replaceAll_pieces _ _ _ Hps).
    destruct es as [|e es].
    + cbn. reflexivity.
    + cbn [removelast] in Hvalues.
      apply Forall_cons in Hvalues as [Hv Hrest].
      rewrite IH; [|by apply fill_bound_plain|exact Hrest].
      rewrite map_map. f_equal. apply map_ext. intros p.
      apply fill_bound_cons.
Qed.

Lemma all_tokens_complete k : k ∈ all_tokens.
Proof. destruct k; unfold all_tokens; set_solver. Qed.

Lemma binding_values (values : token -> string) toks k :
  k ∈ toks ->
  binding k (map (fun k => (k, values k)) toks) = Some (values k).
Proof.
  induction toks as [|k' toks IH]; intros Hk; [by apply elem_of_nil in Hk|].
  cbn [map binding]. destruct (token_eqb k' k) eqn:E.
  - by apply token_eqb_eq in E as ->.
  - apply IH. apply elem_of_cons in Hk as [->|Hk]; [|done].
    by rewrite (proj2 (token_eqb_eq k' k') eq_refl) in E.
Qed.

Lemma entries_keyed values toks :
  entries values toks = keyed (map (fun k => (k, values k)) toks).
Proof. unfold entries, keyed. by rewrite map_map. Qed.

Lemma fill_bound_all (values : token -> string) toks p :
  (forall k, k ∈ toks) ->
  fill_bound (map (fun k => (k, values k)) toks) p = fill values p.
Proof.
  intros Hall. destruct p as [lit|k]; [done|]. cbn [fill_bound fill].
  by rewrite binding_values.
Qed.

(** ** Single-pass rendering *)

Lemma single_pass_no_token values toks c s :
  Ascii.eqb c "{" = false ->
  List.find (fun e => negb (String.eqb (fst e) "")
                      && JS.startsWith (fst e) (String c s))
    (entries values toks) = None.
Proof.
  intros Hc. induction toks as [|k toks IH]; [done|].
  cbn [entries map List.find fst]. fold (entries values toks).
  by rewrite (startsWith_token_other _ _ _ Hc), andb_false_r.
Qed.

Lemma single_pass_go_here replacements c s :
  single_pass_go replacements 0 (String c s)
  = match List.find
            (fun e => negb (String.eqb (fst e) "")
                      && JS.startsWith (fst e) (String c s))
            replacements with
    | Some (key, value) =>
        value +:+ single_pass_go replacements (String.length key - 1) s
    | None => String c (single_pass_go replacements 0 s)
    end.
Proof. reflexivity. Qed.

Lemma single_pass_literal values lit rest :
  brace_free lit = true ->
  single_pass_go (entries values all_tokens) 0 (lit +:+ rest)
  = lit +:+ single_pass_go (entries values all_tokens) 0 rest.
Proof.
  induction lit as [|c lit IH]; [done|]. intros H.
  unfold brace_free in H. cbn [all_chars] in H.
  apply andb_true_iff in H as [Hc Hlit]. apply negb_true_iff in Hc.
  rewrite !append_cons, single_pass_go_here.
  rewrite (single_pass_no_token _ _ _ _ Hc). by rewrite (IH Hlit).
Qed.

Lemma single_pass_token values k rest :
  single_pass_go (entries values all_tokens) 0 (token_text k +:+ rest)
  = values k +:+ single_pass_go (entries values all_tokens) 0 rest.
Proof. destruct k; reflexivity. Qed.

(** The single-pass renderer gives every placeholder of a plain template
    its value, whatever the values are. *)
Lemma render_single_pass_pieces values ps :
  Forall (fun p => plain p = true) ps ->
  render_single_pass (assemble ps) (entries values all_tokens)
  = assemble (map (fill values) ps).
Proof.
  unfold render_single_pass.
  induction 1 as [|p ps Hp _ IH]; [done|].
  cbn [assemble map]. destruct p as [lit|k]; cbn [piece_text fill].
  - by rewrite (single_pass_literal _ _ _ Hp), IH.
  - by rewrite single_pass_token, IH.
Qed.

Lemma removelast_Forall {A} (P : A -> Prop) l :
  Forall P l -> Forall P (removelast l).
Proof.
  induction 1 as [|x l Hx Hl IH]; [constructor|].
  cbn [removelast]. destruct l; [constructor|]. by constructor.
Qed.

(** C2 (amended): [applyTemplate] substitutes the tokens one after
    another, in the order of the entries, and a value put in by one step is
    scanned by the steps after it.  On a template whose opening braces all
    belong to placeholders, and with no opening brace in any value, the
    nine tokens bound in any order give each placeholder its value: this
    is the result of the single-pass renderer, and it is the same for
    every order of the entries. *)
Theorem C2_single_pass_without_braces :
  forall (values : token -> string) (ps : list piece)
         (replacements : list (string * string)),
    Forall (fun p => plain p = true) ps ->
    (forall k, brace_free (values k) = true) ->
    Permutation replacements (entries values all_tokens) ->
    applyTemplate (assemble ps) replacements
      = assemble (map (fill values) ps)
    /\ render_single_pass (assemble ps) (entries values all_tokens)
      = assemble (map (fill values) ps)
    /\ applyTemplate (assemble ps) replacements
      = applyTemplate (assemble ps) (entries values all_tokens).
Proof.
  intros values ps replacements Hps Hvalues Hperm.
  assert (Hseq : forall toks,
             Permutation all_tokens toks ->
             applyTemplate (assemble ps) (entries values toks)
             = assemble (map (fill values) ps)).
  { intros toks Htoks. rewrite entries_keyed.
    rewrite applyTemplate_pieces; [|exact Hps|].
    - f_equal. apply map_ext. intros p. apply fill_bound_all.
      intros k. rewrite <- Htoks. apply all_tokens_complete.
    - apply removelast_Forall, Forall_map, Forall_forall.
      intros k _. apply Hvalues. }
  apply Permutation_map_inv in Hperm as (toks & -> & Htoks).
  split; [by apply Hseq|]. split; [by apply render_single_pass_pieces|].
  transitivity (assemble (map (fill values) ps));
    [by apply Hseq | symmetry; by apply Hseq].
Qed.

Lemma startsWith_prefix key s :
  JS.startsWith key s = true -> exists rest, s = key +:+ rest.
Proof.
  revert s. induction key as [|a key IH]; intros s H; [by exists s|].
  destruct s as [|b s]; [discriminate|]. cbn [JS.startsWith] in H.
  apply andb_true_iff in H as [Hab Hrest].
  apply Ascii.eqb_eq in Hab as ->. destruct (IH _ Hrest) as [rest ->].
  by exists rest.
Qed.

Lemma replace_scan_skip key value t rest :
  replace_scan key value (String.length t) (t +:+ rest)
  = replace_scan key value 0 rest.
Proof.
  induction t as [|c t IH]; [by destruct rest|].
  rewrite append_cons. exact IH.
Qed.

(** At an occurrence of the key, the scan emits the value and resumes
    after the occurrence. *)
Lemma replace_scan_at_key key value rest :
  key ≠ "" ->
  replace_scan key value 0 (key +:+ rest)
  = value +:+ replace_scan key value 0 rest.
Proof.
  intros Hkey. destruct key as [|a key]; [done|].
  rewrite append_cons. cbn [replace_scan].
  rewrite <- append_cons, startsWith_append.
  replace (String.length (String a key) - 1)%nat with (String.length key)
    by (simpl; lia).
  by rewrite replace_scan_skip.
Qed.

Lemma replace_scan_elsewhere key value c s :
  JS.startsWith key (String c s) = false ->
  replace_scan key value 0 (String c s)
  = String c (replace_scan key value 0 s).
Proof. intros H. cbn [replace_scan]. by rewrite H. Qed.

(** Replacing a key by itself gives the text back: [split] loses
    nothing. *)
Lemma replaceAll_self key s : replaceAll key key s = s.
Proof.
  destruct (String.eqb_spec key "") as [->|Hkey].
  { unfold replaceAll, JS.join. cbn [JS.split].
    induction s as [|c s IH]; [done|]. cbn [JS.chars String.concat].
    destruct (JS.chars s) eqn:E; [by destruct s|].
    rewrite IH. reflexivity. }
  rewrite replaceAll_scan by done.
  assert (Hlen : forall n s, (String.length s <= n)%nat ->
                             replace_scan key key 0 s = s).
  { clear s. induction n as [|n IH]; intros s Hs.
    - destruct s; [done|]. simpl in Hs. lia.
    - destruct s as [|c s]; [done|].
      destruct (JS.startsWith key (String c s)) eqn:E.
      + destruct (startsWith_prefix _ _ E) as [rest Hrest].
        rewrite Hrest, replace_scan_at_key by done. rewrite IH; [done|].
        apply (f_equal String.length) in Hrest.
        rewrite length_append in Hrest. simpl in Hs, Hrest.
        destruct key; [done|]. simpl in Hrest. lia.
      + rewrite replace_scan_elsewhere by done. rewrite IH; [done|].
        simpl in Hs. lia. }
  by apply (Hlen (String.length s)).
Qed.

(** A text in which the key does not occur is left as it is. *)
Lemma replaceAll_absent key value s :
  key ≠ "" -> JS.includes key s = false -> replaceAll key value s = s.
Proof.
  intros Hkey. rewrite replaceAll_scan by done.
  induction s as [|c s IH]; [done|]. cbn [JS.includes].
  intros [Hhere Hlater]%orb_false_iff.
  rewrite replace_scan_elsewhere by done. by rewrite IH.
Qed.

(** ** The handler's rendering *)

Lemma sessionReplacements_entries d root platform transcript :
  sessionReplacements d root platform transcript
  = entries (session_values d root platform transcript) all_tokens.
Proof. reflexivity. Qed.


Lemma brace_free_digits_and_dashes s :
  all_chars is_digit_or_dash s = true -> brace_free s = true.
Proof. apply (digits_and_dashes_avoid "{"). reflexivity. Qed.

Lemma formatTimeDash_chars d :
  all_chars is_digit_or_dash (formatTimeDash d) = true.
Proof.
  unfold formatTimeDash. by rewrite !all_chars_append, !pad2_chars.
Qed.

Lemma formatTimeColon_brace_free d : brace_free (formatTimeColon d) = true.
Proof.
  unfold brace_free. eapply all_chars_weaken; [|apply formatTimeColon_chars].
  intros c Hc. destruct (Ascii.eqb_spec c "{") as [->|_]; [|done].
  discriminate Hc.
Qed.





(** C2, as stated, fails: a value is scanned again by the substitutions
    that follow it, so the result depends on the order.  With the handler's
    bindings and a workspace root spelled [{{MODEL}}], the template
    [{{WORKSPACE_ROOT}}] renders as the model name, where a single pass
    gives the root; and two bindings give different texts in the two
    orders.  Values without an opening brace do not suffice: in the
    template [{{MODEL{{OS}}], a platform name spelled [}}] completes the
    token [{{MODEL}}], which the next substitution replaces. *)
Lemma C2_counterexample_value_rescanned :
  ~ (forall template replacements,
       applyTemplate template replacements
       = render_single_pass template replacements)
  /\ ~ (forall template replacements replacements',
          Permutation replacements replacements' ->
          applyTemplate template replacements
          = applyTemplate template replacements')
  /\ ~ (forall template values,
          (forall k, brace_free (values k) = true) ->
          applyTemplate template (entries values all_tokens)
          = render_single_pass template (entries values all_tokens)).
Proof.
  split; [|split]; intros claim.
  3:{ specialize (claim "{{MODEL{{OS}}"
                    (session_values example_date "/tmp/ws" "}}" "hello")).
      assert (Hvalues : forall k,
                brace_free (session_values example_date "/tmp/ws" "}}"
                              "hello" k) = true) by (by intros []).
      specialize (claim Hvalues). vm_compute in claim. discriminate claim. }
  - specialize (claim "{{WORKSPACE_ROOT}}"
                  (sessionReplacements example_date "{{MODEL}}" "linux"
                     "hello")).
    vm_compute in claim. discriminate claim.
  - specialize (claim "{{WORKSPACE_ROOT}}"
                  [("{{WORKSPACE_ROOT}}", "{{MODEL}}");
                   ("{{MODEL}}", "GPT-5.2")]
                  [("{{MODEL}}", "GPT-5.2");
                   ("{{WORKSPACE_ROOT}}", "{{MODEL}}")]
                  (perm_swap _ _ _)).
    vm_compute in claim. discriminate claim.
Qed.

Lemma C2_witness :
  let values := session_values example_date "/tmp/ws" "linux" "hello" in
  applyTemplate "# {{DATE}} at {{TIME_COLON}}: {{TRANSCRIPT}}"
    (rev (entries values all_tokens))
  = "# 05-03-2024 at 09:07:02: hello"
  /\ applyTemplate "# {{DATE}} at {{TIME_COLON}}: {{TRANSCRIPT}}"
       (rev (entries values all_tokens))
     = applyTemplate "# {{DATE}} at {{TIME_COLON}}: {{TRANSCRIPT}}"
         (entries values all_tokens).
Proof.
  intros values.
  destruct (C2_single_pass_without_braces values
              [Lit "# "; Tok DATE; Lit " at "; Tok TIME_COLON; Lit ": ";
               Tok TRANSCRIPT]
              (rev (entries values all_tokens)))
    as (Hfilled & _ & Horder).
  - by repeat constructor.
  - intros k. by destruct k.
  - symmetry. apply Permutation_rev.
  - split; [exact Hfilled | exact Horder].
Defined.



(** ** Further properties of the code *)

Lemma findIndex_range {A} (p : A -> bool) l :
  -1 <= findIndex p l < Z.of_nat (length l).
Proof.
  induction l as [|x l IH]; [simpl; lia|]. cbn [findIndex length].
  destruct (p x); [lia|].
  destruct (Z.ltb_spec (findIndex p l) 0); lia.
Qed.

(** What [findIndex] finds: the first element that passes the test. *)
Lemma findIndex_found {A} (p : A -> bool) l i :
  findIndex p l = i -> 0 <= i ->
  exists before x after,
    l = before ++ x :: after /\ Z.of_nat (length before) = i
    /\ p x = true /\ Forall (fun y => p y = false) before.
Proof.
  revert i. induction l as [|x l IH]; intros i Hi Hpos.
  - simpl in Hi. lia.
  - cbn [findIndex] in Hi. destruct (p x) eqn:Hx.
    + exists [], x, l. subst i. by repeat split.
    + destruct (Z.ltb_spec (findIndex p l) 0) as [Hneg|Hnn]; [lia|].
      destruct (IH (findIndex p l) eq_refl Hnn)
        as (before & y & after & -> & Hlen & Hy & Hbefore).
      exists (x :: before), y, after. repeat split; try done.
      * cbn [length]. lia.
      * by constructor.
Qed.

Lemma index_at_after (before after : list string) x :
  index_at (before ++ x :: after) (Z.of_nat (length before) + 1)
  = after !! 0%nat.
Proof.
  unfold index_at.
  destruct (Z.ltb_spec (Z.of_nat (length before) + 1) 0); [lia|].
  replace (Z.to_nat (Z.of_nat (length before) + 1))
    with (length before + 1)%nat by lia.
  rewrite lookup_app_r by lia.
  by replace (length before + 1 - length before)%nat with 1%nat by lia.
Qed.

(** X1: [parseCliArgs] sets the override to [v] exactly when, among the
    arguments after the first two, the first [--workspaceRoot] is
    immediately followed by [v] and [v] is not the empty string. *)
Theorem X1_parseCliArgs_override :
  forall argv v,
    cli_workspaceRoot (parseCliArgs argv) = Some v <->
    (exists before after,
        drop 2 argv = before ++ "--workspaceRoot" :: v :: after
        /\ ("--workspaceRoot" ∉ before)
        /\ v ≠ "").
Proof.
  intros argv v. unfold parseCliArgs. split.
  - set (args := drop 2 argv).
    set (idx := findIndex (String.eqb "--workspaceRoot") args).
    destruct (Z.leb_spec 0 idx) as [Hpos|Hneg]; [|discriminate].
    destruct (findIndex_found _ args idx eq_refl Hpos)
      as (before & x & after & Hargs & Hlen & Hx & Hbefore).
    apply String.eqb_eq in Hx as <-.
    rewrite Hargs, <- Hlen, index_at_after.
    destruct after as [|w after]; [discriminate|]. cbn [lookup list_lookup].
    destruct w as [|c w]; [discriminate|]. cbn. intros [= <-].
    exists before, after. repeat split; [|done].
    intros Hin. rewrite Forall_forall in Hbefore.
    specialize (Hbefore _ Hin). by rewrite String.eqb_refl in Hbefore.
  - intros (before & after & -> & Hnot & Hv).
    rewrite (findIndex_first_occurrence _ _ _ Hnot), index_at_after.
    cbn [lookup list_lookup].
    destruct (Z.leb_spec 0 (Z.of_nat (length before))); [|lia].
    by destruct v.
Qed.

Lemma X1_witness :
  cli_workspaceRoot
    (parseCliArgs ["node"; "index.js"; "--verbose"; "--workspaceRoot";
                   "/srv/ws"; "--workspaceRoot"; "/other"])
  = Some "/srv/ws".
Proof.
  apply X1_parseCliArgs_override.
  exists ["--verbose"], ["--workspaceRoot"; "/other"].
  split; [reflexivity|]. split; [|discriminate].
  intros H. apply list_elem_of_singleton in H. discriminate H.
Defined.

Lemma cycle_fill_length n whole cur :
  whole ≠ "" -> String.length (JS.cycle_fill n whole cur) = n.
Proof.
  intros Hw. revert cur. induction n as [|n IH]; intros cur; [done|].
  cbn [JS.cycle_fill]. destruct cur; [destruct whole; [done|]|];
    cbn [String.length]; by rewrite IH.
Qed.

Lemma padStart_length k fill s :
  fill ≠ "" ->
  String.length (JS.padStart k fill s) = Nat.max k (String.length s).
Proof.
  intros Hfill. unfold JS.padStart.
  destruct (Nat.leb_spec k (String.length s)); [lia|].
  destruct fill as [|c fill]; [done|].
  rewrite length_append, cycle_fill_length by done. lia.
Qed.

Lemma padStart_suffix k s :
  exists zeros,
    JS.padStart k "0" s = zeros +:+ s
    /\ all_chars (fun c => Ascii.eqb c "0") zeros = true.
Proof.
  unfold JS.padStart. destruct (k <=? String.length s)%nat;
    [by exists ""|].
  eexists. split; [reflexivity|]. by apply cycle_fill_chars.
Qed.

(** X2: [pad2] and [pad3] put zeros, and only zeros, before the decimal
    numeral of [n], up to a width of two and three characters; a numeral
    that is wider already is kept whole. *)
Theorem X2_pad_never_truncates :
  forall n,
    (exists zeros,
        pad2 n = zeros +:+ JS.String_of_Z n
        /\ all_chars (fun c => Ascii.eqb c "0") zeros = true)
    /\ String.length (pad2 n)
       = Nat.max 2 (String.length (JS.String_of_Z n))
    /\ (exists zeros,
          pad3 n = zeros +:+ JS.String_of_Z n
          /\ all_chars (fun c => Ascii.eqb c "0") zeros = true)
    /\ String.length (pad3 n)
       = Nat.max 3 (String.length (JS.String_of_Z n)).
Proof.
  intros n. split; [apply padStart_suffix|].
  split; [by apply padStart_length|].
  split; [apply padStart_suffix | by apply padStart_length].
Qed.

(** X3: for a valid date [formatTimeColon] has the form [HH:MM:SS] and
    reads back as the hours, minutes and seconds of the date. *)
Theorem X3_formatTimeColon_form :
  forall d,
    Date_in_range d = true ->
    matches_form "HH:MM:SS" (formatTimeColon d) = true
    /\ field_value (formatTimeColon d) 0 2 = Some (getHours d)
    /\ field_value (formatTimeColon d) 3 2 = Some (getMinutes d)
    /\ field_value (formatTimeColon d) 6 2 = Some (getSeconds d).
Proof.
  intros d Hd. rewrite (formatTimeColon_digits _ Hd).
  apply Date_in_range_bounds in Hd.
  destruct Hd as (_ & _ & _ & Hh & Hm & Hs & Hms).
  split.
  { form_step. form_step. form_step. form_step.
    rewrite <- (append_empty_r (two_digits _)). by form_step. }
  split; [rewrite field_at_0 by reflexivity;
          apply digits_value_two_digits; lia|].
  split; [skip_group 3%nat; rewrite field_at_0 by reflexivity;
          apply digits_value_two_digits; lia|].
  skip_group 6%nat; skip_group 3%nat.
  rewrite field_whole by reflexivity.
  apply digits_value_two_digits; lia.
Qed.

Lemma X3_witness :
  matches_form "HH:MM:SS" (formatTimeColon example_date) = true
  /\ field_value (formatTimeColon example_date) 3 2 = Some 7.
Proof.
  destruct (X3_formatTimeColon_form example_date eq_refl)
    as (Hform & _ & Hminutes & _).
  split; [exact Hform | exact Hminutes].
Defined.

(** X4: for a valid date [formatTimeDash] has the form [HH-MM-SS] and
    reads back as the hours, minutes and seconds of the date; it is the
    text [formatTimeDashMs] starts with, before the dash and the three
    digits of the milliseconds. *)
Theorem X4_formatTimeDash_form :
  forall d,
    Date_in_range d = true ->
    matches_form "HH-MM-SS" (formatTimeDash d) = true
    /\ field_value (formatTimeDash d) 0 2 = Some (getHours d)
    /\ field_value (formatTimeDash d) 3 2 = Some (getMinutes d)
    /\ field_value (formatTimeDash d) 6 2 = Some (getSeconds d)
    /\ exists millis,
         formatTimeDashMs d = formatTimeDash d +:+ "-" +:+ millis
         /\ matches_form "mmm" millis = true
         /\ digits_value millis = Some (getMilliseconds d).
Proof.
  intros d Hd. unfold formatTimeDashMs.
  rewrite (formatTimeDash_digits _ Hd).
  apply Date_in_range_bounds in Hd.
  destruct Hd as (_ & _ & _ & Hh & Hm & Hs & Hms).
  split.
  { form_step. form_step. form_step. form_step.
    rewrite <- (append_empty_r (two_digits _)). by form_step. }
  split; [rewrite field_at_0 by reflexivity;
          apply digits_value_two_digits; lia|].
  split; [skip_group 3%nat; rewrite field_at_0 by reflexivity;
          apply digits_value_two_digits; lia|].
  split.
  { skip_group 6%nat; skip_group 3%nat.
    rewrite field_whole by reflexivity.
    apply digits_value_two_digits; lia. }
  exists (three_digits (getMilliseconds d)).
  rewrite pad3_three_digits by lia. split; [done|].
  split; [by form_step | apply digits_value_three_digits; lia].
Qed.

Lemma X4_witness :
  formatTimeDash example_date = "09-07-02"
  /\ matches_form "HH-MM-SS" (formatTimeDash example_date) = true.
Proof.
  destruct (X4_formatTimeDash_form example_date eq_refl) as (Hform & _).
  split; [reflexivity | exact Hform].
Defined.


Lemma loadOrCreateTemplate_reads logRoot s content :
  Fs.files s !! Path.join logRoot "_TEMPLATE.md" = Some content ->
  loadOrCreateTemplate logRoot s = (Fs.Returned content, s).
Proof.
  intros Hfile. unfold loadOrCreateTemplate.
  set (tp := Path.join logRoot "_TEMPLATE.md") in *.
  rewrite (bind_returned _ _ _ _ _ (fileExists_spec tp s)).
  rewrite (is_file_lookup _ _ _ Hfile), orb_true_r.
  unfold Fs.readFile. by rewrite Hfile.
Qed.

(** X5: once [loadOrCreateTemplate] has returned a template, a second
    call returns the same text and changes nothing: the default template
    is written at most once. *)
Theorem X5_loadOrCreateTemplate_stable :
  forall logRoot s template s',
    loadOrCreateTemplate logRoot s = (Fs.Returned template, s') ->
    loadOrCreateTemplate logRoot s' = (Fs.Returned template, s').
Proof.
  intros logRoot s template s' Hload.
  assert (Hfile : Fs.files s' !! Path.join logRoot "_TEMPLATE.md"
                  = Some template).
  { unfold loadOrCreateTemplate in Hload.
    set (tp := Path.join logRoot "_TEMPLATE.md") in *.
    rewrite (bind_returned _ _ _ _ _ (fileExists_spec tp s)) in Hload.
    destruct (Fs.is_dir s tp || Fs.is_file s tp).
    - unfold Fs.readFile in Hload.
      destruct (Fs.files s !! tp) as [content|] eqn:E; [|discriminate].
      inversion Hload; by subst.
    - unfold Fs.bind in Hload.
      destruct (Fs.writeFile tp defaultTemplate s) as [[u|e] s1] eqn:W;
        [|discriminate].
      inversion Hload; subst. apply writeFile_returned in W as ->.
      simpl. apply lookup_insert_eq. }
  by apply loadOrCreateTemplate_reads.
Qed.

Lemma X5_witness :
  let s := {| Fs.dirs := {[ "/tmp/ws/copilot-session_log" ]};
              Fs.files := ∅ |} in
  let first := loadOrCreateTemplate "/tmp/ws/copilot-session_log" s in
  fst first = Fs.Returned defaultTemplate
  /\ loadOrCreateTemplate "/tmp/ws/copilot-session_log" (snd first)
     = (Fs.Returned defaultTemplate, snd first).
Proof.
  intros s first. split; [vm_compute; reflexivity|].
  apply (X5_loadOrCreateTemplate_stable _ s). vm_compute. reflexivity.
Defined.

(** X6: [loadOrCreateTemplate] creates no directory and leaves every file
    other than the template as it was; when it rejects, it has changed
    nothing at all. *)
Theorem X6_loadOrCreateTemplate_frame :
  forall logRoot s outcome s',
    loadOrCreateTemplate logRoot s = (outcome, s') ->
    Fs.dirs s' = Fs.dirs s
    /\ (forall q, q ≠ Path.join logRoot "_TEMPLATE.md" ->
                  Fs.files s' !! q = Fs.files s !! q)
    /\ (forall e, outcome = Fs.Thrown e -> s' = s).
Proof.
  intros logRoot s outcome s' Hload.
  destruct (loadOrCreateTemplate_frame _ _ _ _ Hload) as [Hdirs Hfiles].
  split; [exact Hdirs|]. split; [exact Hfiles|].
  intros e ->. unfold loadOrCreateTemplate in Hload.
  set (tp := Path.join logRoot "_TEMPLATE.md") in *.
  rewrite (bind_returned _ _ _ _ _ (fileExists_spec tp s)) in Hload.
  destruct (Fs.is_dir s tp || Fs.is_file s tp).
  - unfold Fs.readFile in Hload.
    destruct (Fs.files s !! tp); inversion Hload; by subst.
  - unfold Fs.bind in Hload.
    destruct (Fs.writeFile tp defaultTemplate s) as [[u|e'] s1] eqn:W;
      [discriminate|].
    inversion Hload; subst. by apply writeFile_thrown in W.
Qed.

Lemma X6_witness :
  let s := {| Fs.dirs := {[ "/tmp/ws/copilot-session_log" ]};
              Fs.files := {[ "/tmp/ws/notes.md" := "keep" ]} |} in
  let run := loadOrCreateTemplate "/tmp/ws/copilot-session_log" s in
  Fs.dirs (snd run) = Fs.dirs s
  /\ Fs.files (snd run) !! "/tmp/ws/notes.md" = Some "keep".
Proof.
  intros s run.
  destruct (X6_loadOrCreateTemplate_frame "/tmp/ws/copilot-session_log" s
              (fst run) (snd run)) as (Hdirs & Hfiles & _).
  - apply surjective_pairing.
  - split; [exact Hdirs|]. rewrite Hfiles; [reflexivity|].
    vm_compute. discriminate.
Defined.

(** X7: [applyTemplate] leaves alone a template in which none of the
    keys occurs: each step finds nothing to replace.  So a template
    without placeholders is rendered as it is, and the transcript is
    dropped. *)
Theorem X7_applyTemplate_no_occurrence :
  forall template replacements,
    Forall (fun e => fst e ≠ "" /\ JS.includes (fst e) template = false)
      replacements ->
    applyTemplate template replacements = template.
Proof.
  intros template replacements Habsent. unfold applyTemplate.
  induction Habsent as [|[key value] rest [Hkey Hnone] _ IH]; [done|].
  cbn [fold_left fst] in *. by rewrite replaceAll_absent.
Qed.

Lemma X7_witness :
  applyTemplate "Nothing to fill in here."
    (sessionReplacements example_date "/tmp/ws" "linux" "hello")
  = "Nothing to fill in here.".
Proof.
  apply X7_applyTemplate_no_occurrence.
  repeat constructor; discriminate.
Defined.

(** X8: a call for any other tool is answered with the error flag set
    and the text [Unknown tool: name]; the handler is not run and the
    store is left as it was. *)
Theorem X8_callTool_unknown_tool :
  forall env cli name arguments s,
    name ≠ "save-copilot-session" ->
    callTool env cli name arguments s
    = (Fs.Returned
         {| text := "Unknown tool: " +:+ name; isError := Some true |}, s).
Proof.
  intros env cli name arguments s Hname. unfold callTool.
  destruct (String.eqb_spec name "save-copilot-session"); [done|].
  reflexivity.
Qed.

Lemma X8_witness :
  callTool sample_env (mkCli None) "delete-everything" None Fs.empty
  = (Fs.Returned
       {| text := "Unknown tool: delete-everything"; isError := Some true |},
     Fs.empty).
Proof. apply X8_callTool_unknown_tool. discriminate. Defined.

Lemma fill_bound_keeps_absent k value k' ps :
  Tok k' ∉ ps -> Tok k' ∉ map (fill_bound [(k, value)]) ps.
Proof.
  intros Hnot Hin. apply list_elem_of_fmap in Hin as (p & Hp & Hin).
  destruct p as [lit|j]; [discriminate|].
  cbn [fill_bound binding] in Hp.
  destruct (token_eqb k j); [discriminate|]. by inversion Hp; subst.
Qed.

Lemma fill_bound_absent k value ps :
  Tok k ∉ ps -> map (fill_bound [(k, value)]) ps = ps.
Proof.
  induction ps as [|p ps IH]; [done|]. intros Hnot.
  apply not_elem_of_cons in Hnot as [Hp Hps]. cbn [map].
  rewrite (IH Hps). f_equal. destruct p as [lit|j]; [done|].
  cbn [fill_bound binding]. destruct (token_eqb k j) eqn:E; [|done].
  apply token_eqb_eq in E as ->. done.
Qed.

(** Sequential substitution on plain pieces: a value may hold an opening
    brace when its token does not occur, or when it comes last. *)
Lemma applyTemplate_pieces_used es ps :
  Forall (fun p => plain p = true) ps ->
  Forall (fun e => brace_free (snd e) = true \/ Tok (fst e) ∉ ps)
    (removelast es) ->
  applyTemplate (assemble ps) (keyed es)
  = assemble (map (fill_bound es) ps).
Proof.
  revert ps. induction es as [|[k value] es IH]; intros ps Hps Hvalues.
  - cbn. f_equal. rewrite <- (map_id ps) at 1. apply map_ext.
    intros p. by rewrite fill_bound_nil.
  - change (applyTemplate (assemble ps) (keyed ((k, value) :: es)))
      with (applyTemplate (replaceAll (token_text k) value (assemble ps))
              (keyed es)).
    rewrite (replaceAll_pieces _ _ _ Hps).
    destruct es as [|e es]; [reflexivity|].
    cbn [removelast] in Hvalues.
    apply Forall_cons in Hvalues as [Hv Hrest]. cbn [fst snd] in Hv.
    rewrite IH.
    + rewrite map_map. f_equal. apply map_ext. intros p.
      apply fill_bound_cons.
    + destruct Hv as [Hv|Hv]; [by apply fill_bound_plain|].
      by rewrite (fill_bound_absent _ _ _ Hv).
    + eapply Forall_impl; [exact Hrest|]. intros e' [He'|He']; [by left|].
      right. by apply fill_bound_keeps_absent.
Qed.

Lemma token_not_among k ps :
  Forall (fun p => p ≠ Tok k) ps -> Tok k ∉ ps.
Proof.
  intros Hall Hin. rewrite Forall_forall in Hall. by apply (Hall _ Hin).
Qed.


Lemma mkdir_recursive_dirs p s outcome s' :
  Fs.mkdir_recursive p s = (outcome, s') -> Fs.dirs s ⊆ Fs.dirs s'.
Proof.
  unfold Fs.mkdir_recursive. intros H.
  destruct (List.find _ _); inversion H; subst; simpl; set_solver.
Qed.

(** X10: whatever its outcome, [saveCopilotSession] removes no directory
    and leaves every file other than the template and the session file as
    it was; a call whose [savedAt] is rejected changes nothing. *)
Theorem X10_saveCopilotSession_frame :
  forall env args s outcome s',
    saveCopilotSession env args s = (outcome, s') ->
    let root := JS.nullish (workspaceRoot args) (process_cwd env) in
    Fs.dirs s ⊆ Fs.dirs s'
    /\ (forall d q,
          stamp env args = Some d ->
          q ≠ Path.join (Path.join root "copilot-session_log") "_TEMPLATE.md" ->
          q ≠ outPathOf root d ->
          Fs.files s' !! q = Fs.files s !! q)
    /\ (stamp env args = None -> s' = s).
Proof.
  intros env args s outcome s' Hrun root.
  destruct (stamp env args) as [d|] eqn:Hd.
  2:{ rewrite saveCopilotSession_invalid in Hrun by done.
      inversion Hrun; subst. by repeat split. }
  rewrite (saveCopilotSession_stamped _ _ _ Hd) in Hrun. cbv zeta in Hrun.
  fold root in Hrun. unfold Fs.bind in Hrun.
  assert (Hgoal : Fs.dirs s ⊆ Fs.dirs s'
                  /\ forall q,
                       q ≠ templatePathOf (logRootOf root) ->
                       q ≠ outPathOf root d ->
                       Fs.files s' !! q = Fs.files s !! q).
  { destruct (ensureDir (outDirOf root d) s) as [[u|e1] s1] eqn:Hmk.
    2:{ inversion Hrun; subst.
        split; [by eapply mkdir_recursive_dirs|]. intros q _ _.
        by rewrite (mkdir_recursive_files _ _ _ _ Hmk). }
    pose proof (mkdir_recursive_dirs _ _ _ _ Hmk) as Hdirs1.
    pose proof (mkdir_recursive_files _ _ _ _ Hmk) as Hfiles1.
    destruct (loadOrCreateTemplate (logRootOf root) s1)
      as [[template|e2] s2] eqn:Hload;
      destruct (loadOrCreateTemplate_frame _ _ _ _ Hload)
        as [Hdirs2 Hfiles2].
    2:{ inversion Hrun; subst. rewrite Hdirs2. split; [done|].
        intros q Hq _. by rewrite (Hfiles2 q Hq), Hfiles1. }
    destruct (negb _).
    { inversion Hrun; subst. rewrite Hdirs2. split; [done|].
      intros q Hq _. by rewrite (Hfiles2 q Hq), Hfiles1. }
    destruct (Fs.writeFile _ _ s2) as [[u'|e3] s3] eqn:W.
    - inversion Hrun; subst. apply writeFile_returned in W as ->. simpl.
      rewrite Hdirs2. split; [done|]. intros q Hq Hq'.
      rewrite lookup_insert_ne by done. by rewrite (Hfiles2 q Hq), Hfiles1.
    - inversion Hrun; subst. apply writeFile_thrown in W as ->.
      rewrite Hdirs2. split; [done|].
      intros q Hq _. by rewrite (Hfiles2 q Hq), Hfiles1. }
  destruct Hgoal as [Hdirs Hfiles]. split; [exact Hdirs|].
  split; [|discriminate].
  intros d' q [= <-] Hq Hq'. by apply Hfiles.
Qed.

Lemma X10_witness :
  let s := {| Fs.dirs := {[ "/tmp"; "/tmp/ws" ]};
              Fs.files := {[ "/tmp/ws/README.md" := "keep" ]} |} in
  let run :=
    saveCopilotSession sample_env
      (mkArgs (Some "hello") (Some "2024-03-05T09:07:02.004Z")
         (Some "/tmp/ws")) s in
  Fs.dirs s ⊆ Fs.dirs (snd run)
  /\ Fs.files (snd run) !! "/tmp/ws/README.md" = Some "keep".
Proof.
  intros s run.
  destruct (X10_saveCopilotSession_frame sample_env
              (mkArgs (Some "hello") (Some "2024-03-05T09:07:02.004Z")
                 (Some "/tmp/ws")) s (fst run) (snd run))
    as (Hdirs & Hfiles & _); [apply surjective_pairing|].
  split; [exact Hdirs|].
  rewrite (Hfiles example_date); [reflexivity | reflexivity | |];
    vm_compute; discriminate.
Defined.

(** ** A successful call, end to end *)

Lemma ancestors_from_slash_free acc b :
  slash_free b = true -> Fs.ancestors_from acc b = [].
Proof.
  revert acc. induction b as [|c b IH]; intros acc; [done|].
  unfold slash_free. cbn [all_chars Fs.ancestors_from].
  intros [Hc Hb]%andb_true_iff. apply negb_true_iff in Hc.
  rewrite Hc. cbn [andb]. by apply IH.
Qed.

Lemma ancestors_from_append acc a b :
  acc +:+ a ≠ "" ->
  slash_free b = true ->
  Fs.ancestors_from acc (a +:+ "/" +:+ b)
  = Fs.ancestors_from acc a ++ [acc +:+ a].
Proof.
  revert acc. induction a as [|c a IH]; intros acc Hne Hb.
  - rewrite append_empty_r in *. rewrite append_empty_l.
    change ("/" +:+ b) with (String "/" b). cbn [Fs.ancestors_from].
    change (Path.is_slash "/") with true.
    destruct (String.eqb_spec acc "") as [->|_]; [done|]. cbn.
    by rewrite ancestors_from_slash_free.
  - rewrite append_cons. cbn [Fs.ancestors_from].
    assert (Hacc : (acc +:+ String c "") +:+ a = acc +:+ String c a)
      by (by rewrite append_assoc).
    rewrite IH; [|by rewrite Hacc|done]. rewrite Hacc.
    by destruct (Path.is_slash c && negb (String.eqb acc "")).
Qed.

Lemma ancestors_append a b :
  a ≠ "" ->
  slash_free b = true ->
  Fs.ancestors (a +:+ "/" +:+ b) = Fs.ancestors a ++ [a].
Proof.
  intros Ha Hb. unfold Fs.ancestors.
  by rewrite ancestors_from_append.
Qed.

Lemma parent_append a b :
  a ≠ "" -> slash_free b = true -> Fs.parent (a +:+ "/" +:+ b) = Some a.
Proof.
  intros Ha Hb. unfold Fs.parent. rewrite ancestors_append by done.
  apply last_snoc.
Qed.

Lemma ancestors_from_shorter acc p q :
  q ∈ Fs.ancestors_from acc p ->
  (String.length q < String.length acc + String.length p)%nat.
Proof.
  revert acc. induction p as [|c p IH]; intros acc Hq.
  - by apply elem_of_nil in Hq.
  - cbn [Fs.ancestors_from String.length] in *.
    assert (Hrec : q ∈ Fs.ancestors_from (acc +:+ String c "") p ->
                   (String.length q
                    < String.length acc + S (String.length p))%nat).
    { intros H. apply IH in H. rewrite length_append in H. simpl in H.
      lia. }
    destruct (Path.is_slash c && negb (String.eqb acc "")); [|auto].
    apply elem_of_cons in Hq as [->|Hq]; [lia | auto].
Qed.

Lemma ancestors_shorter p q :
  q ∈ Fs.ancestors p -> (String.length q < String.length p)%nat.
Proof. intros H. by apply ancestors_from_shorter in H. Qed.

Lemma is_dir_after_mkdir p s u s' q :
  Fs.mkdir_recursive p s = (Fs.Returned u, s') ->
  Fs.is_dir s' q = true <->
  (q ∈ Fs.ancestors p \/ q = p \/ Fs.is_dir s q = true).
Proof.
  unfold Fs.mkdir_recursive. intros H.
  destruct (List.find _ _); [discriminate|]. inversion H; subst.
  unfold Fs.is_dir. simpl. rewrite !bool_decide_eq_true.
  rewrite elem_of_union, elem_of_list_to_set, elem_of_app,
    list_elem_of_singleton. tauto.
Qed.

Lemma mkdir_recursive_succeeds p s :
  Forall (fun q => Fs.is_file s q = false) (Fs.ancestors p ++ [p]) ->
  exists s', Fs.mkdir_recursive p s = (Fs.Returned tt, s').
Proof.
  intros Hfree. unfold Fs.mkdir_recursive.
  destruct (List.find (Fs.is_file s) (Fs.ancestors p ++ [p]))
    as [q|] eqn:E; [|by eexists].
  apply find_some in E as [Hin Hq]. rewrite Forall_forall in Hfree.
  apply list_elem_of_In in Hin. by rewrite (Hfree q Hin) in Hq.
Qed.

Lemma abs_path_nonempty segs : segs ≠ [] -> abs_path segs ≠ "".
Proof. destruct segs; [done|]. intros _. cbn [abs_path]. by rewrite append_cons. Qed.

(** X11: a call with a usable [savedAt], a transcript that is not blank
    and a normalized absolute workspace root succeeds whenever no regular
    file sits where the date directory or a directory above it has to be,
    and no directory sits at the path of the template or of the session
    file.  It returns the session path, which then holds the rendering of
    the template that was found, or of the default template when none was
    there; the template file and the date directory exist afterwards. *)
Theorem X11_saveCopilotSession_succeeds :
  forall env args s d segs,
    stamp env args = Some d ->
    JS.trim (JS.nullish (transcriptMarkdown args) "") ≠ "" ->
    JS.nullish (workspaceRoot args) (process_cwd env) = abs_path segs ->
    segs ≠ [] ->
    Forall (fun seg => clean_segment seg = true) segs ->
    let root := abs_path segs in
    let logRoot := root +:+ "/" +:+ "copilot-session_log" in
    let outDir := logRoot +:+ "/" +:+ formatDateFolder d in
    let outPath :=
      outDir +:+ "/" +:+ ("session_" +:+ formatTimeDashMs d +:+ ".md") in
    let templatePath := logRoot +:+ "/" +:+ "_TEMPLATE.md" in
    let template :=
      match Fs.files s !! templatePath with
      | Some content => content
      | None => defaultTemplate
      end in
    Forall (fun q => Fs.is_file s q = false)
      (Fs.ancestors outDir ++ [outDir]) ->
    Fs.is_dir s templatePath = false ->
    Fs.is_dir s outPath = false ->
    exists s',
      saveCopilotSession env args s = (Fs.Returned (savedPath outPath), s')
      /\ Fs.files s' !! outPath
         = Some (applyTemplate template
                   (sessionReplacements d root (process_platform env)
                      (JS.trim (JS.nullish (transcriptMarkdown args) ""))))
      /\ Fs.files s' !! templatePath = Some template
      /\ Fs.is_dir s' outDir = true.
Proof.
  intros env args s d segs Hstamp Htranscript Hroot Hne Hclean
    root logRoot outDir outPath templatePath template
    Hfree Htemplate Hout.
  set (base := "session_" +:+ formatTimeDashMs d +:+ ".md") in *.
  pose proof (clean_segment_tests _ (formatDateFolder_clean d))
    as (Hdate_free & _).
  pose proof (clean_segment_tests _ (session_file_name_clean d))
    as (Hbase_free & _). fold base in Hbase_free.
  (* the paths the handler computes *)
  assert (Hsegs1 : Forall (fun seg => clean_segment seg = true)
                     (segs ++ ["copilot-session_log"])).
  { apply Forall_app. split; [done|]. by apply Forall_singleton. }
  assert (Hsegs2 : Forall (fun seg => clean_segment seg = true)
                     ((segs ++ ["copilot-session_log"])
                        ++ [formatDateFolder d])).
  { apply Forall_app. split; [done|].
    apply Forall_singleton, formatDateFolder_clean. }
  assert (Hne1 : segs ++ ["copilot-session_log"] ≠ []) by (by destruct segs).
  assert (Hne2 : (segs ++ ["copilot-session_log"]) ++ [formatDateFolder d]
                 ≠ []) by (by destruct segs).
  assert (HlogRoot' : logRoot = abs_path (segs ++ ["copilot-session_log"]))
    by (by rewrite abs_path_snoc).
  assert (HoutDir' : outDir = abs_path ((segs ++ ["copilot-session_log"])
                                          ++ [formatDateFolder d])).
  { rewrite abs_path_snoc. unfold outDir. by rewrite HlogRoot'. }
  assert (HlogRoot : logRootOf root = logRoot).
  { unfold logRootOf, root.
    by rewrite (join_abs_path segs "copilot-session_log" Hclean Hne eq_refl). }
  assert (HoutDir : outDirOf root d = outDir).
  { unfold outDirOf. rewrite HlogRoot, HoutDir', HlogRoot'.
    apply (join_abs_path _ _ Hsegs1 Hne1), formatDateFolder_clean. }
  assert (HoutPath : outPathOf root d = outPath).
  { unfold outPathOf. fold base. rewrite HoutDir. unfold outPath.
    rewrite HoutDir', <- abs_path_snoc.
    apply (join_abs_path _ _ Hsegs2 Hne2), session_file_name_clean. }
  assert (HtemplatePath : templatePathOf (logRootOf root) = templatePath).
  { unfold templatePathOf. rewrite HlogRoot. unfold templatePath.
    rewrite HlogRoot', <- abs_path_snoc.
    by apply (join_abs_path _ _ Hsegs1 Hne1). }
  assert (HlogRoot_ne : logRoot ≠ "")
    by (rewrite HlogRoot'; by apply abs_path_nonempty).
  assert (HoutDir_ne : outDir ≠ "")
    by (rewrite HoutDir'; by apply abs_path_nonempty).
  (* the date directory is created *)
  destruct (mkdir_recursive_succeeds outDir s Hfree) as [s1 Hmk].
  pose proof (mkdir_recursive_files _ _ _ _ Hmk) as Hfiles1.
  pose proof (is_dir_after_mkdir _ _ _ _ logRoot Hmk) as HlogRoot_dir.
  pose proof (is_dir_after_mkdir _ _ _ _ outDir Hmk) as HoutDir_dir.
  pose proof (is_dir_after_mkdir _ _ _ _ templatePath Hmk) as Htemplate1.
  pose proof (is_dir_after_mkdir _ _ _ _ outPath Hmk) as Hout1.
  assert (Hanc : Fs.ancestors outDir = Fs.ancestors logRoot ++ [logRoot])
    by (by apply ancestors_append).
  assert (HlogRoot_in : Fs.is_dir s1 logRoot = true).
  { apply HlogRoot_dir. left. rewrite Hanc. apply elem_of_app. right.
    by apply list_elem_of_singleton. }
  assert (HoutDir_in : Fs.is_dir s1 outDir = true).
  { apply HoutDir_dir. right. by left. }
  assert (Hlen_template :
            (String.length logRoot < String.length templatePath)%nat).
  { unfold templatePath. rewrite !length_append. simpl. lia. }
  assert (Hlen_outPath :
            (String.length outDir < String.length outPath)%nat).
  { unfold outPath. rewrite !length_append. simpl. lia. }
  assert (Htemplate_not : Fs.is_dir s1 templatePath = false).
  { apply not_true_is_false. intros H. apply Htemplate1 in H.
    destruct H as [H|[H|H]]; [| |by rewrite Htemplate in H].
    - rewrite Hanc in H. apply elem_of_app in H as [H|H].
      + apply ancestors_shorter in H. lia.
      + apply list_elem_of_singleton in H. rewrite H in Hlen_template. lia.
    - unfold templatePath, outDir in H.
      apply String.app_inj in H. apply String.app_inj in H.
      pose proof (formatDateFolder_chars d) as Hchars.
      rewrite <- H in Hchars. discriminate Hchars. }
  assert (Hout_not : Fs.is_dir s1 outPath = false).
  { apply not_true_is_false. intros H. apply Hout1 in H.
    destruct H as [H|[H|H]]; [| |by rewrite Hout in H].
    - apply ancestors_shorter in H. lia.
    - rewrite H in Hlen_outPath. lia. }
  (* the template is read or created *)
  assert (Hload : exists s2,
             loadOrCreateTemplate logRoot s1 = (Fs.Returned template, s2)
             /\ Fs.dirs s2 = Fs.dirs s1
             /\ Fs.files s2 !! templatePath = Some template).
  { assert (Htp : Path.join logRoot "_TEMPLATE.md" = templatePath)
      by (rewrite <- HlogRoot; exact HtemplatePath).
    unfold loadOrCreateTemplate. rewrite Htp.
    rewrite (bind_returned _ _ _ _ _ (fileExists_spec templatePath s1)).
    rewrite Htemplate_not. cbn [orb]. unfold Fs.is_file.
    rewrite Hfiles1. unfold template.
    destruct (Fs.files s !! templatePath) as [content|] eqn:E.
    - rewrite bool_decide_eq_true_2 by (by eexists).
      unfold Fs.readFile. rewrite Hfiles1, E. exists s1.
      by rewrite Hfiles1.
    - rewrite bool_decide_eq_false_2 by (by intros [? ?]).
      unfold Fs.bind, Fs.writeFile. rewrite Htemplate_not.
      unfold templatePath at 1. rewrite parent_append by done.
      rewrite HlogRoot_in.
      eexists. split; [reflexivity|]. split; [done|]. simpl.
      apply lookup_insert_eq. }
  destruct Hload as (s2 & Hload & Hdirs2 & Htemplate2).
  (* the session file is written *)
  set (rendered :=
         applyTemplate template
           (sessionReplacements d root (process_platform env)
              (JS.trim (JS.nullish (transcriptMarkdown args) "")))).
  exists {| Fs.dirs := Fs.dirs s2;
            Fs.files := <[outPath := rendered]> (Fs.files s2) |}.
  split; [|split; [|split]].
  - rewrite (saveCopilotSession_stamped _ _ _ Hstamp). cbv zeta.
    rewrite Hroot. fold root. rewrite HoutDir, HoutPath, HlogRoot.
    unfold ensureDir.
    rewrite (bind_returned _ _ _ _ _ Hmk).
    rewrite (bind_returned _ _ _ _ _ Hload).
    destruct (JS.trim (JS.nullish (transcriptMarkdown args) ""))
      as [|c t] eqn:Etrim; [done|].
    cbn [JS.truthy negb]. fold rendered. unfold Fs.bind, Fs.writeFile.
    unfold Fs.is_dir in *. rewrite Hdirs2, Hout_not.
    unfold outPath at 1. rewrite parent_append by done.
    rewrite HoutDir_in. reflexivity.
  - simpl. apply lookup_insert_eq.
  - simpl. rewrite lookup_insert_ne; [exact Htemplate2|].
    intros H. apply (f_equal String.length) in H.
    unfold outPath, templatePath, outDir, base, formatTimeDashMs in H.
    rewrite !length_append in H. simpl in H. lia.
  - unfold Fs.is_dir in *. simpl. by rewrite Hdirs2.
Qed.

Lemma X11_witness :
  exists s',
    saveCopilotSession sample_env
      (mkArgs (Some "hello") (Some "2024-03-05T09:07:02.004Z")
         (Some "/tmp/ws")) Fs.empty
    = (Fs.Returned
         (savedPath
            "/tmp/ws/copilot-session_log/05-03-2024/session_09-07-02-004.md"),
       s')
    /\ Fs.files s' !! "/tmp/ws/copilot-session_log/_TEMPLATE.md"
       = Some defaultTemplate.
Proof.
  destruct (X11_saveCopilotSession_succeeds sample_env
              (mkArgs (Some "hello") (Some "2024-03-05T09:07:02.004Z")
                 (Some "/tmp/ws")) Fs.empty example_date ["tmp"; "ws"])
    as (s' & Hrun & _ & Htemplate & _).
  - reflexivity.
  - vm_compute. discriminate.
  - reflexivity.
  - discriminate.
  - by repeat constructor.
  - vm_compute. by repeat constructor.
  - vm_compute. reflexivity.
  - vm_compute. reflexivity.
  - exists s'. split; [exact Hrun | exact Htemplate].
Defined.

(** ** The store helpers *)

(** X12: [fileExists] never rejects and changes nothing; it answers yes
    exactly when a file or a directory has the path. *)
Theorem X12_fileExists_never_rejects :
  forall p s,
    exists found,
      fileExists p s = (Fs.Returned found, s)
      /\ (found = true <->
          Fs.is_dir s p = true \/ Fs.is_file s p = true).
Proof.
  intros p s. exists (Fs.is_dir s p || Fs.is_file s p).
  split; [apply fileExists_spec|]. apply orb_true_iff.
Qed.

(** X13: once [ensureDir] has succeeded, the directory and every
    directory above it exist, no file has changed and no directory is
    gone; running it again succeeds and changes nothing. *)
Theorem X13_ensureDir_idempotent :
  forall p s u s',
    ensureDir p s = (Fs.Returned u, s') ->
    Fs.is_dir s' p = true
    /\ (forall q, q ∈ Fs.ancestors p -> Fs.is_dir s' q = true)
    /\ Fs.files s' = Fs.files s
    /\ Fs.dirs s ⊆ Fs.dirs s'
    /\ ensureDir p s' = (Fs.Returned tt, s').
Proof.
  intros p s u s' Hrun. unfold ensureDir in *.
  split; [by eapply mkdir_recursive_returned|].
  split.
  { intros q Hq. apply (is_dir_after_mkdir _ _ _ _ q Hrun). by left. }
  split; [by eapply mkdir_recursive_files|].
  split; [by eapply mkdir_recursive_dirs|].
  unfold Fs.mkdir_recursive in *.
  destruct (List.find (Fs.is_file s) (Fs.ancestors p ++ [p])) eqn:E;
    [discriminate|].
  inversion Hrun; subst. unfold Fs.is_file at 1. cbn [Fs.files].
  fold (Fs.is_file s). rewrite E. f_equal.
  destruct s as [ds fs]. cbn [Fs.dirs Fs.files]. f_equal.
  apply set_eq. intros q. rewrite !elem_of_union. tauto.
Qed.

Lemma X13_witness :
  let s := {| Fs.dirs := {[ "/tmp" ]};
              Fs.files := {[ "/tmp/notes.md" := "keep" ]} |} in
  let s' := snd (ensureDir "/tmp/ws/copilot-session_log/05-03-2024" s) in
  Fs.is_dir s' "/tmp/ws/copilot-session_log" = true
  /\ Fs.files s' = Fs.files s
  /\ ensureDir "/tmp/ws/copilot-session_log/05-03-2024" s'
     = (Fs.Returned tt, s').
Proof.
  intros s s'.
  destruct (X13_ensureDir_idempotent
              "/tmp/ws/copilot-session_log/05-03-2024" s tt s')
    as (_ & Habove & Hfiles & _ & Hagain); [vm_compute; reflexivity|].
  split; [|by split]. apply Habove. vm_compute.
  apply list_elem_of_In. simpl. tauto.
Defined.

(** ** Round trips and replies *)

(** X14: [split] followed by [join] on the same key gives the text back,
    so [applyTemplate] with every key bound to itself returns the template
    as it is, whatever the keys are. *)
Theorem X14_applyTemplate_identity :
  forall template keys,
    applyTemplate template (map (fun key => (key, key)) keys) = template.
Proof.
  intros template keys. unfold applyTemplate. revert template.
  induction keys as [|key keys IH]; intros template; [done|].
  cbn [map fold_left]. by rewrite replaceAll_self.
Qed.



Lemma saveCopilotSession_error env args s message s' :
  saveCopilotSession env args s = (Fs.Returned (error message), s') ->
  message = invalid_savedAt_message \/ message = no_transcript_message.
Proof.
  intros Hrun. destruct (stamp env args) as [d|] eqn:Hd.
  2:{ rewrite saveCopilotSession_invalid in Hrun by done.
      inversion Hrun. by left. }
  rewrite (saveCopilotSession_stamped _ _ _ Hd) in Hrun. cbv zeta in Hrun.
  unfold Fs.bind in Hrun.
  destruct (ensureDir _ s) as [[u|e1] s1]; [|discriminate].
  destruct (loadOrCreateTemplate _ s1) as [[t|e2] s2]; [|discriminate].
  destruct (negb _).
  - inversion Hrun. by right.
  - destruct (Fs.writeFile _ _ s2) as [[u'|e3] s3]; discriminate.
Qed.

(** X16: a reply of the tool either carries no error flag and names a
    file that now exists, or carries the error flag and one of the two
    fixed messages. *)
Theorem X16_callTool_reply :
  forall env cli input s reply s',
    callTool env cli "save-copilot-session" (Some input) s
    = (Fs.Returned reply, s') ->
    (isError reply = None /\ is_Some (Fs.files s' !! text reply))
    \/ (isError reply = Some true
        /\ (text reply = invalid_savedAt_message
            \/ text reply = no_transcript_message)).
Proof.
  intros env cli input s reply s'. rewrite callTool_save.
  destruct (saveCopilotSession _ _ s) as [[r|e] s1] eqn:Hrun; [|discriminate].
  intros [= <- <-]. destruct r as [p|message]; cbn [respond].
  - left. split; [done|]. cbn [text].
    destruct (saveCopilotSession_savedPath _ _ _ _ _ Hrun)
      as (d & t & _ & _ & _ & Hfile).
    by rewrite Hfile.
  - right. split; [done|]. cbn [text].
    by apply (saveCopilotSession_error _ _ _ _ _ Hrun).
Qed.

Lemma X16_witness :
  let run :=
    callTool sample_env (mkCli (Some "/tmp/ws")) "save-copilot-session"
      (Some (mkArgs (Some "hello") None None)) Fs.empty in
  exists reply,
    fst run = Fs.Returned reply
    /\ isError reply = None
    /\ is_Some (Fs.files (snd run) !! text reply).
Proof.
  intros run.
  assert (Hrun : exists reply, run = (Fs.Returned reply, snd run)
                               /\ isError reply = None)
    by (eexists; split; vm_compute; reflexivity).
  destruct Hrun as (reply & Hrun & Hflag). exists reply.
  split; [by rewrite Hrun|]. split; [exact Hflag|].
  destruct (X16_callTool_reply _ _ _ _ _ _ Hrun) as [[_ Hfile]|[Herr _]];
    [exact Hfile | congruence].
Defined.

(** ** The project name *)

Lemma last_nonempty_snoc acc l b :
  b ≠ "" -> Path.last_nonempty acc (l ++ [b]) = b.
Proof.
  intros Hb. revert acc. induction l as [|x l IH]; intros acc.
  - cbn. by destruct (String.eqb_spec b "").
  - rewrite <- app_comm_cons. cbn [Path.last_nonempty]. apply IH.
Qed.

Lemma basename_abs_path segs b :
  Forall (fun seg => clean_segment seg = true) segs ->
  clean_segment b = true ->
  Path.basename (abs_path (segs ++ [b])) = b.
Proof.
  intros Hsegs Hb. unfold Path.basename.
  rewrite segments_abs_path.
  - rewrite app_comm_cons. apply last_nonempty_snoc.
    apply clean_segment_tests in Hb as (_ & Hb & _). intros ->. discriminate.
  - apply Forall_app. split; [done|]. by apply Forall_singleton.
  - by destruct segs.
Qed.

(** X17: under a normalized absolute workspace root, [{{PROJECT_NAME}}]
    renders as the last segment of the root, whatever the segments above
    it and the transcript contain, when that segment has no opening
    brace. *)
Theorem X17_project_name_is_last_segment :
  forall d segs b platform transcript,
    Forall (fun seg => clean_segment seg = true) segs ->
    clean_segment b = true ->
    brace_free b = true ->
    Path.basename (abs_path (segs ++ [b])) = b
    /\ applyTemplate "{{PROJECT_NAME}}"
         (sessionReplacements d (abs_path (segs ++ [b])) platform transcript)
       = b.
Proof.
  intros d segs b platform transcript Hsegs Hb Hfree.
  pose proof (basename_abs_path _ _ Hsegs Hb) as Hbase.
  split; [exact Hbase|].
  change "{{PROJECT_NAME}}" with (assemble [Tok PROJECT_NAME]).
  rewrite sessionReplacements_entries, entries_keyed.
  rewrite applyTemplate_pieces_used.
  - cbn. rewrite Hbase. by rewrite append_empty_r.
  - by repeat constructor.
  - cbn [all_tokens map removelast]. rewrite !Forall_cons, Forall_nil.
    cbn [fst snd session_values]. split_and!; [| | | | | | | | done].
    + left. apply brace_free_digits_and_dashes, formatDateFolder_chars.
    + left. apply formatTimeColon_brace_free.
    + left. apply brace_free_digits_and_dashes, formatTimeDash_chars.
    + left. apply brace_free_digits_and_dashes, formatTimeDashMs_chars.
    + right. apply token_not_among; by repeat constructor.
    + left. by rewrite Hbase.
    + right. apply token_not_among; by repeat constructor.
    + by left.
Qed.

Lemma X17_witness :
  applyTemplate "{{PROJECT_NAME}}"
    (sessionReplacements example_date "/home/{{OS}}/project" "linux"
       "{{PROJECT_NAME}}")
  = "project".
Proof.
  destruct (X17_project_name_is_last_segment example_date
              ["home"; "{{OS}}"] "project" "linux" "{{PROJECT_NAME}}")
    as [_ Hrender]; [by repeat constructor | reflexivity | reflexivity |].
  exact Hrender.
Defined.

(** ** The transcript test *)

Lemma trimStart_go_empty skip s :
  JS.trimStart_go skip s = "" -> white_only_go skip s = true.
Proof.
  revert skip. induction s as [|c s IH]; intros skip; [done|].
  cbn [white_only_go JS.trimStart_go]. destruct skip as [|k]; [|apply IH].
  destruct (JS.leading_white (String c s)) as [w|]; [apply IH | done].
Qed.

Lemma trimStart_go_result skip s :
  JS.trimStart_go skip s = ""
  \/ exists c r, JS.trimStart_go skip s = String c r
                 /\ JS.leading_white (String c r) = None.
Proof.
  revert skip. induction s as [|c s IH]; intros skip; [by left|].
  cbn [JS.trimStart_go]. destruct skip as [|k]; [|apply IH].
  destruct (JS.leading_white (String c s)) as [w|] eqn:E; [apply IH|].
  right. by exists c, s.
Qed.

Lemma trimEnd_empty c r :
  JS.leading_white (String c r) = None -> JS.trimEnd (String c r) ≠ "".
Proof.
  intros H. cbn [JS.trimEnd]. unfold JS.trimStart. cbn [JS.trimStart_go].
  by rewrite H.
Qed.

(** X18: the transcript test of the handler fires exactly for a
    transcript that is absent, empty or made of white space only: any
    other character, wherever it stands, lets the call through. *)
Theorem X18_transcript_test :
  forall t,
    JS.truthy (Some (JS.trim (JS.nullish t ""))) = false <-> blank t = true.
Proof.
  intros t. split.
  - intros Hfalsy.
    assert (Htrim : JS.trim (JS.nullish t "") = "").
    { destruct (JS.trim (JS.nullish t "")); [done | discriminate]. }
    destruct t as [s|]; [|done]. cbn [JS.nullish blank] in *.
    unfold JS.trim, JS.trimStart in Htrim.
    destruct (trimStart_go_result 0 s) as [E|(c & r & E & Hwhite)].
    + by apply trimStart_go_empty.
    + rewrite E in Htrim. by apply trimEnd_empty in Htrim.
  - intros Hblank. by rewrite (trim_blank _ Hblank).
Qed.

(** ** A file in the way *)

(** X19: when a regular file sits where the date directory or a
    directory above it has to be, the call rejects with a file-system
    error and changes nothing, whatever the transcript is. *)
Theorem X19_saveCopilotSession_obstructed :
  forall env args s d q,
    stamp env args = Some d ->
    let root := JS.nullish (workspaceRoot args) (process_cwd env) in
    q ∈ Fs.ancestors (outDirOf root d) ++ [outDirOf root d] ->
    Fs.is_file s q = true ->
    exists e, saveCopilotSession env args s = (Fs.Thrown e, s).
Proof.
  intros env args s d q Hd root Hq Hfile.
  rewrite (saveCopilotSession_stamped _ _ _ Hd). cbv zeta. fold root.
  unfold Fs.bind, ensureDir, Fs.mkdir_recursive.
  destruct (List.find (Fs.is_file s) _) as [q'|] eqn:E; [by eexists|].
  apply list_elem_of_In in Hq.
  by rewrite (find_none _ _ E q Hq) in Hfile.
Qed.

Lemma X19_witness :
  let s := {| Fs.dirs := {[ "/tmp"; "/tmp/ws" ]};
              Fs.files := {[ "/tmp/ws/copilot-session_log" := "notes" ]} |} in
  exists e,
    saveCopilotSession sample_env
      (mkArgs (Some "hello") (Some "2024-03-05T09:07:02.004")
         (Some "/tmp/ws")) s
    = (Fs.Thrown e, s).
Proof.
  intros s.
  apply (X19_saveCopilotSession_obstructed sample_env _ s example_date
           "/tmp/ws/copilot-session_log"); [reflexivity | | reflexivity].
  vm_compute. apply list_elem_of_In. simpl. tauto.
Defined.
